(** * TabAlert: the tab-flashing controller of [TabAlert.js]

    A shallow embedding of [src/TabAlert/TabAlert.js].  The script installs a
    factory [window.TabAlert]; every call of the factory opens a closure with
    its own variables ([alertDelay], [alertIcon], [alertTitle], [countdown],
    [intervalID], [originalIcon], [originalTitle], [showOriginal]) and returns
    an object with the two methods [alert] and [stop].

    The embedding keeps the shape of the script:
    - the closure variables are the record [Controller];
    - the browser window (document title, the favicon [link] element, the
      table of running intervals, the console) is the record [Host]; every
      call of a host API that has an effect is appended to [trace];
    - the functions of the script are computations in the monad [JS] of state
      and exceptions, written statement by statement;
    - a page that holds several controllers is the record [Page]. *)

From Stdlib Require Import ZArith String Ascii List Lia.
From stdpp Require Import base option gmap strings list pretty.

Local Open Scope string_scope.
Local Open Scope Z_scope.

(** ** JavaScript values that reach the script *)

(** What [Element.getAttribute] returns, and what the fields of the two icon
    objects hold: a string, or [null] for an attribute the element does not
    carry. *)
Inductive jsval : Type :=
  | JNull
  | JStr (s : string).

(** The string conversion the DOM applies to the value argument of
    [Element.setAttribute]. *)
Definition ToString (v : jsval) : string :=
  match v with
  | JNull => "null"
  | JStr s => s
  end.

(** Strict inequality with the empty string, as in [alertIcon.image !== '']. *)
Definition is_not_empty (v : jsval) : bool :=
  match v with
  | JStr "" => false
  | _ => true
  end.

(** The objects [{ image: ..., type: ... }] of the script. *)
Record Icon : Type := mkIcon { image : jsval; type : jsval }.

(** The [delay] field as a caller can write it: an integral Number or a
    string.  [DNum z] stands for the Number that equals the integer [z]; the
    embedding follows the script for [z] of magnitude up to 2^53, where every
    integer is a Number and prints as its decimal numeral (from 10^21 on a
    Number prints in exponent form). *)
Inductive delayval : Type :=
  | DNum (z : Z)
  | DStr (s : string).

(** The argument object of [alert] with fields of the types its JSDoc gives:
    [message] and [icon] strings, [times] an integral Number, [delay] an
    integral Number or a string; [None] is a field that is [undefined].
    [times = Some n] stands for the Number that equals [n]; the arithmetic
    the script does on it is exact while the countdown [n * 2] stays within
    2^53 in magnitude. *)
Record AlertConfig : Type := mkConfig {
  message : option string;
  icon : option string;
  times : option Z;
  delay : option delayval
}.

(** The arguments of [alert] the embedding covers: none (or [undefined]),
    [null], and an object with fields of the JSDoc types.  An object with a
    field of another type (a BigInt [times], a Symbol [delay]) is not among
    them. *)
Inductive jsarg : Type :=
  | JUndefined
  | JNullArg
  | JObject (cfg : AlertConfig).

Inductive jserror : Type :=
  | TypeError.

(** ** parseInt *)

(** White space that [parseInt] skips, on code units below 256. *)
Definition isWhiteSpace (a : ascii) : bool :=
  let n := nat_of_ascii a in
  ((9 <=? n)%nat && (n <=? 13)%nat) || (n =? 32)%nat || (n =? 160)%nat.

Fixpoint trimStart (s : string) : string :=
  match s with
  | String a s' => if isWhiteSpace a then trimStart s' else s
  | EmptyString => s
  end.

(** The value of a digit in radix up to 36. *)
Definition digitValue (a : ascii) : option Z :=
  let n := Z.of_nat (nat_of_ascii a) in
  if (48 <=? n) && (n <=? 57) then Some (n - 48)
  else if (97 <=? n) && (n <=? 122) then Some (n - 87)
  else if (65 <=? n) && (n <=? 90) then Some (n - 55)
  else None.

(** The longest prefix of radix-[R] digits, read as a number; [acc] is [None]
    until a digit has been read. *)
Fixpoint parseDigits (R : Z) (s : string) (acc : option Z) : option Z :=
  match s with
  | String a s' =>
      match digitValue a with
      | Some d =>
          if d <? R
          then parseDigits R s' (Some (default 0 acc * R + d))
          else acc
      | None => acc
      end
  | EmptyString => acc
  end.

(** [parseInt(s)] without a radix argument; [None] is [NaN]. *)
Definition parseInt_string (s : string) : option Z :=
  let s := trimStart s in
  let '(sign, s) :=
    match s with
    | String "-" r => (-1, r)
    | String "+" r => (1, r)
    | _ => (1, s)
    end in
  let '(R, s) :=
    match s with
    | String "0" (String "x" r) => (16, r)
    | String "0" (String "X" r) => (16, r)
    | _ => (10, s)
    end in
  Z.mul sign <$> parseDigits R s None.

(** [parseInt] converts its argument to a string first; [undefined] becomes
    the string "undefined".  The result is the integer the digits denote; it
    is the Number [parseInt] returns as long as its magnitude is at most
    2^53 (beyond, the Number is the nearest double). *)
Definition parseInt (v : option delayval) : option Z :=
  match v with
  | None => parseInt_string "undefined"
  | Some (DNum z) => parseInt_string (pretty z)
  | Some (DStr s) => parseInt_string s
  end.

(** ** The host: document, intervals, console *)

(** An element is its attribute map. *)
Abbreviation Element := (gmap string string).

(** [favicon] is the first element that matches
    [link[rel="shortcut icon"]], if there is one. *)
Record Document : Type := mkDocument {
  title : string;
  favicon : option Element
}.

(** A running interval: its handle, the controller whose [_timerEvent] it
    calls, and its period. *)
Record Timer : Type := mkTimer { handle : nat; owner : nat; period : Z }.

(** The effects the script has on the host, newest first in [trace]. *)
Inductive Event : Type :=
  | Warn (msg : string)
  | SetTitle (s : string)
  | SetAttribute (name value : string)
  | SetInterval (h : nat) (ms : Z)
  | ClearInterval (h : option nat).

Record Host : Type := mkHost {
  document : Document;
  timers : list Timer;
  nextHandle : nat;
  trace : list Event
}.

(** ** The closure variables of one controller *)

(** [alertDelay] and [countdown] hold integral Numbers, carried as the
    integers they equal; [countdown -= 1] is exact while the countdown is
    within 2^53 in magnitude. *)

Record Controller : Type := mkController {
  alertDelay : Z;
  alertIcon : Icon;
  alertTitle : string;
  countdown : Z;
  intervalID : option nat;
  originalIcon : Icon;
  originalTitle : string;
  showOriginal : bool
}.

Definition DEFAULT_DELAY : Z := 1000.

(** ** The monad of the script: state and exceptions *)

Record Env : Type := mkEnv { ctl : Controller; host : Host }.

Inductive completion (A : Type) : Type :=
  | Normal (a : A)
  | Throw (e : jserror).
Arguments Normal {A} a.
Arguments Throw {A} e.

Definition JS (A : Type) : Type := Env -> completion A * Env.

Definition ret {A} (a : A) : JS A := fun e => (Normal a, e).

Definition throw {A} (x : jserror) : JS A := fun e => (Throw x, e).

Definition bind {A B} (m : JS A) (k : A -> JS B) : JS B :=
  fun e =>
    match m e with
    | (Normal a, e') => k a e'
    | (Throw x, e') => (Throw x, e')
    end.

Notation "x <- m ;; k" := (bind m (fun x => k))
  (at level 100, m at level 99, right associativity).
Notation "m ;; k" := (bind m (fun _ => k))
  (at level 100, right associativity).

(** The state a computation leaves, whether it returned or threw. *)
Definition exec {A} (m : JS A) (e : Env) : Env := snd (m e).

(** Reading and writing the closure variables. *)
Definition get {A} (f : Controller -> A) : JS A :=
  fun e => (Normal (f (ctl e)), e).

Definition update (f : Controller -> Controller) : JS unit :=
  fun e => (Normal tt, mkEnv (f (ctl e)) (host e)).

Definition set_alertDelay (v : Z) : JS unit :=
  update (fun c => mkController v (alertIcon c) (alertTitle c) (countdown c)
    (intervalID c) (originalIcon c) (originalTitle c) (showOriginal c)).
Definition set_alertIcon (v : Icon) : JS unit :=
  update (fun c => mkController (alertDelay c) v (alertTitle c) (countdown c)
    (intervalID c) (originalIcon c) (originalTitle c) (showOriginal c)).
Definition set_alertTitle (v : string) : JS unit :=
  update (fun c => mkController (alertDelay c) (alertIcon c) v (countdown c)
    (intervalID c) (originalIcon c) (originalTitle c) (showOriginal c)).
Definition set_countdown (v : Z) : JS unit :=
  update (fun c => mkController (alertDelay c) (alertIcon c) (alertTitle c) v
    (intervalID c) (originalIcon c) (originalTitle c) (showOriginal c)).
Definition set_intervalID (v : option nat) : JS unit :=
  update (fun c => mkController (alertDelay c) (alertIcon c) (alertTitle c)
    (countdown c) v (originalIcon c) (originalTitle c) (showOriginal c)).
Definition set_originalIcon (v : Icon) : JS unit :=
  update (fun c => mkController (alertDelay c) (alertIcon c) (alertTitle c)
    (countdown c) (intervalID c) v (originalTitle c) (showOriginal c)).
Definition set_originalTitle (v : string) : JS unit :=
  update (fun c => mkController (alertDelay c) (alertIcon c) (alertTitle c)
    (countdown c) (intervalID c) (originalIcon c) v (showOriginal c)).
Definition set_showOriginal (v : bool) : JS unit :=
  update (fun c => mkController (alertDelay c) (alertIcon c) (alertTitle c)
    (countdown c) (intervalID c) (originalIcon c) (originalTitle c) v).

(** Reading a property of the argument: a [TypeError] on [undefined] and
    [null]. *)
Definition member {A} (args : jsarg) (f : AlertConfig -> option A)
  : JS (option A) :=
  match args with
  | JObject cfg => ret (f cfg)
  | JUndefined | JNullArg => throw TypeError
  end.

(** ** Host APIs *)

Definition with_host (f : Host -> Host) : JS unit :=
  fun e => (Normal tt, mkEnv (ctl e) (f (host e))).

Definition emit (ev : Event) (h : Host) : Host :=
  mkHost (document h) (timers h) (nextHandle h) (ev :: trace h).

(** [window.top.document.title] read and written.  [title] is the title as
    the getter returns it.  The getter strips and collapses white space, so a
    string that is written reads back unchanged when it is in that form
    already ([strip_and_collapse] below); the title a capture has read is. *)
Definition document_title : JS string :=
  fun e => (Normal (title (document (host e))), e).

Definition set_document_title (s : string) : JS unit :=
  with_host (fun h =>
    emit (SetTitle s)
      (mkHost (mkDocument s (favicon (document h)))
              (timers h) (nextHandle h) (trace h))).

(** [window.top.document.querySelector('link[rel="shortcut icon"]')]. *)
Definition querySelector_shortcut_icon : JS (option Element) :=
  fun e => (Normal (favicon (document (host e))), e).

(** [null] for an attribute the element does not carry. *)
Definition getAttribute (el : Element) (name : string) : jsval :=
  match el !! name with
  | Some v => JStr v
  | None => JNull
  end.

(** [favicon.setAttribute(name, value)] on the element the selector found:
    the attribute receives the string conversion of [value]. *)
Definition setAttribute (name : string) (value : jsval) : JS unit :=
  with_host (fun h =>
    emit (SetAttribute name (ToString value))
      (mkHost (mkDocument (title (document h))
                 (insert name (ToString value) <$> favicon (document h)))
              (timers h) (nextHandle h) (trace h))).

Definition console_warn (msg : string) : JS unit :=
  with_host (emit (Warn msg)).

(** [window.setInterval(callback, ms)]: a fresh handle; [who] is the
    controller the callback belongs to. *)
Definition setInterval (who : nat) (ms : Z) : JS nat :=
  fun e =>
    let h := host e in
    let id := nextHandle h in
    (Normal id,
     mkEnv (ctl e)
       (emit (SetInterval id ms)
          (mkHost (document h) (mkTimer id who ms :: timers h)
                  (S id) (trace h)))).

Definition keeps (id : option nat) (t : Timer) : bool :=
  match id with
  | Some h => negb (handle t =? h)%nat
  | None => true
  end.

(** [window.clearInterval(id)]: nothing happens for [undefined] and for a
    handle that is not running. *)
Definition clearInterval (id : option nat) : JS unit :=
  with_host (fun h =>
    emit (ClearInterval id)
      (mkHost (document h) (List.filter (keeps id) (timers h))
              (nextHandle h) (trace h))).

(** ** The icon catalog *)

(** What [ICONS[name]] can yield when it is not [undefined]: a glyph of the
    catalog, or a member every object inherits from [Object.prototype]. *)
Inductive property : Type :=
  | Glyph (s : string)
  | Inherited (name : string).

Definition ICONS : list (string * string) :=
  [ ("bellhop bell", "🛎");
    ("speech balloon", "💬");
    ("police car light", "🚨");
    ("stop sign", "🛑");
    ("hour glass done", "⌛");
    ("alarm clock", "⏰");
    ("stopwatch", "⏱");
    ("timer clock", "⏲");
    ("star", "⭐");
    ("fire", "🔥");
    ("party popper", "🎉");
    ("bell", "🔔");
    ("envelope with arrow", "📩");
    ("locked", "🔒");
    ("exclamation mark", "❗");
    ("red circle", "🔴") ].

Definition Object_prototype : list string :=
  [ "constructor"; "hasOwnProperty"; "isPrototypeOf"; "propertyIsEnumerable";
    "toLocaleString"; "toString"; "valueOf"; "__proto__";
    "__defineGetter__"; "__defineSetter__";
    "__lookupGetter__"; "__lookupSetter__" ].

Fixpoint own_property (name : string) (l : list (string * string))
  : option string :=
  match l with
  | (k, v) :: l' => if String.eqb k name then Some v else own_property name l'
  | [] => None
  end.

(** [ICONS[name]]: the own property, then the prototype; [None] is
    [undefined].  Every value found is truthy. *)
Definition ICONS_get (name : string) : option property :=
  match own_property name ICONS with
  | Some g => Some (Glyph g)
  | None =>
      if bool_decide (name ∈ Object_prototype) then Some (Inherited name)
      else None
  end.

(** ** The functions of the script *)

Section TabAlert.

(** The identity of this closure: the intervals it starts call its own
    [_timerEvent]. *)
Variable self : nat.

(** The rendering surface: the data URI [canvas.toDataURL('image/png')]
    yields after [fillText] has drawn its argument on a 32x32 canvas. *)
Variable canvasImage : property -> string.

Definition _createImageFromText (str : property) : Icon :=
  let imageType := "image/png" in
  mkIcon (JStr (canvasImage str)) (JStr imageType).

Definition _toggleFavicon : JS unit :=
  link <- querySelector_shortcut_icon ;;
  match link with
  | None => ret tt
  | Some _ =>
      so <- get showOriginal ;;
      if so then
        oi <- get originalIcon ;;
        setAttribute "type" (type oi) ;;
        setAttribute "href" (image oi)
      else
        ai <- get alertIcon ;;
        setAttribute "type" (type ai) ;;
        setAttribute "href" (image ai)
  end.

Definition _toggleTitle : JS unit :=
  so <- get showOriginal ;;
  ot <- get originalTitle ;;
  at' <- get alertTitle ;;
  set_document_title (if so then ot else at').

Definition _getOriginalFavicon : JS Icon :=
  link <- querySelector_shortcut_icon ;;
  match link with
  | Some el =>
      ret (mkIcon (getAttribute el "href") (getAttribute el "type"))
  | None =>
      console_warn "favicon not found" ;;
      ret (mkIcon (JStr "") (JStr ""))
  end.

Definition stop : JS unit :=
  id <- get intervalID ;;
  clearInterval id ;;
  set_showOriginal true ;;
  _toggleFavicon ;;
  _toggleTitle.

Definition _timerEvent : JS unit :=
  so <- get showOriginal ;;
  set_showOriginal (negb so) ;;
  n <- get countdown ;;
  set_countdown (n - 1) ;;
  n <- get countdown ;;
  (if n <? -1 then set_countdown (-1) else ret tt) ;;
  n <- get countdown ;;
  (if n =? 0 then stop else ret tt) ;;
  ai <- get alertIcon ;;
  (if is_not_empty (image ai) then _toggleFavicon else ret tt) ;;
  at' <- get alertTitle ;;
  (if negb (String.eqb at' "") then _toggleTitle else ret tt).

Definition _startTimer : JS unit :=
  set_showOriginal true ;;
  d <- get alertDelay ;;
  id <- setInterval self d ;;
  set_intervalID (Some id) ;;
  _timerEvent.

(** [publicObject.alert].  The assignment [args.delay = parseInt(...)]
    also overwrites the caller's field; the script reads it back at once
    and nothing else of the controller depends on it. *)
Definition alert (args : jsarg) : JS unit :=
  t <- document_title ;;
  set_originalTitle t ;;
  ic <- _getOriginalFavicon ;;
  set_originalIcon ic ;;
  msg <- member args message ;;
  match msg with
  | Some m => set_alertTitle m
  | None => set_alertTitle ""
  end ;;
  name <- member args icon ;;
  match name ≫= ICONS_get with
  | Some g => set_alertIcon (_createImageFromText g)
  | None => set_alertIcon (mkIcon (JStr "") (JStr ""))
  end ;;
  n <- member args times ;;
  match n with
  | Some n => set_countdown (n * 2)
  | None => set_countdown 0
  end ;;
  d <- member args delay ;;
  match parseInt d with
  | Some d => set_alertDelay d
  | None => set_alertDelay DEFAULT_DELAY
  end ;;
  _startTimer.

End TabAlert.

(** The values of the closure variables when the factory returns. *)
Definition initial (h : Host) : Controller :=
  {| alertDelay := DEFAULT_DELAY;
     alertIcon := mkIcon (JStr "") (JStr "");
     alertTitle := "";
     countdown := -1;
     intervalID := None;
     originalIcon := mkIcon (JStr "") (JStr "");
     originalTitle := title (document h);
     showOriginal := true |}.

(** [k] timer ticks in a row. *)
Definition ticks (k : nat) (e : Env) : Env := Nat.iter k (exec _timerEvent) e.

(** How often [stop] ran: it is the only caller of [clearInterval]. *)
Definition is_clear (ev : Event) : bool :=
  match ev with ClearInterval _ => true | _ => false end.

Definition stop_calls (tr : list Event) : nat := length (List.filter is_clear tr).

(** The values the script wrote to [document.title], newest first. *)
Definition title_writes (tr : list Event) : list string :=
  omap (fun ev => match ev with SetTitle s => Some s | _ => None end) tr.

(** The host page changes its own title (no effect of the script). *)
Definition host_title (s : string) (e : Env) : Env :=
  let h := host e in
  mkEnv (ctl e)
    (mkHost (mkDocument s (favicon (document h)))
            (timers h) (nextHandle h) (trace h)).

(** What [_getOriginalFavicon] reads off the document. *)
Definition snapshot (d : Document) : Icon :=
  match favicon d with
  | Some el => mkIcon (getAttribute el "href") (getAttribute el "type")
  | None => mkIcon (JStr "") (JStr "")
  end.

(** The display is on its "original" side: the flag is set, the title is the
    stored original title, and the favicon link, when there is one, carries
    what [_toggleFavicon] writes from the stored original icon. *)
Definition shows_original (e : Env) : Prop :=
  showOriginal (ctl e) = true /\
  title (document (host e)) = originalTitle (ctl e) /\
  forall el, favicon (document (host e)) = Some el ->
    el !! "type" = Some (ToString (type (originalIcon (ctl e)))) /\
    el !! "href" = Some (ToString (image (originalIcon (ctl e)))).

(** What [getAttribute(name)] yields on the favicon link, if there is one. *)
Definition favicon_attribute (name : string) (e : Env) : option jsval :=
  (fun el => getAttribute el name) <$> favicon (document (host e)).

(** The variables a tick never assigns. *)
Definition same_config (c c' : Controller) : Prop :=
  alertDelay c' = alertDelay c /\ alertIcon c' = alertIcon c /\
  alertTitle c' = alertTitle c /\ intervalID c' = intervalID c /\
  originalIcon c' = originalIcon c /\ originalTitle c' = originalTitle c.

(** The interval with handle [id] is running. *)
Definition running (id : nat) (h : Host) : Prop :=
  exists t, In t (timers h) /\ handle t = id.

(** The state in which [_startTimer] makes its synchronous call of
    [_timerEvent]: [alert] has stored the originals and the configuration and
    has installed its interval. *)
Definition armed (self : nat) (canvasImage : property -> string)
    (cfg : AlertConfig) (e : Env) : Env :=
  let h := host e in
  let ms := default DEFAULT_DELAY (parseInt (delay cfg)) in
  mkEnv
    {| alertDelay := ms;
       alertIcon :=
         match icon cfg ≫= ICONS_get with
         | Some g => _createImageFromText canvasImage g
         | None => mkIcon (JStr "") (JStr "")
         end;
       alertTitle := default "" (message cfg);
       countdown := match times cfg with Some n => n * 2 | None => 0 end;
       intervalID := Some (nextHandle h);
       originalIcon := snapshot (document h);
       originalTitle := title (document h);
       showOriginal := true |}
    (mkHost (document h)
       (mkTimer (nextHandle h) self ms :: timers h)
       (S (nextHandle h))
       (SetInterval (nextHandle h) ms ::
        match favicon (document h) with
        | Some _ => trace h
        | None => Warn "favicon not found" :: trace h
        end)).

(** How often the script called [console.warn]. *)
Definition warnings (tr : list Event) : nat :=
  length (List.filter (fun ev => match ev with Warn _ => true | _ => false end)
            tr).

(** The attribute writes of the script, newest first. *)
Definition attribute_writes (tr : list Event) : list (string * string) :=
  omap (fun ev =>
          match ev with SetAttribute n v => Some (n, v) | _ => None end) tr.

(** The countdown [alert(cfg)] sets does not reach zero within the
    synchronous tick and [k] further ones: [times] is omitted, or not
    positive, or more than [(k + 1) / 2]. *)
Definition no_expiry (cfg : AlertConfig) (k : nat) : Prop :=
  match times cfg with
  | Some n => n <= 0 \/ Z.of_nat k < 2 * n - 1
  | None => True
  end.

(** Every running interval has a handle [setInterval] has already given
    out. *)
Definition handles_below (h : Host) : Prop :=
  Forall (fun t => (handle t < nextHandle h)%nat) (timers h).

(** White space as the [document.title] getter sees it: tab, line feed,
    form feed, carriage return and space. *)
Definition is_ascii_whitespace (a : ascii) : bool :=
  let n := nat_of_ascii a in
  (n =? 9)%nat || (n =? 10)%nat || (n =? 12)%nat || (n =? 13)%nat ||
  (n =? 32)%nat.

(** [started]: a character has been kept; [pending]: white space has been
    seen since. *)
Fixpoint strip_collapse_go (s : string) (started pending : bool) : string :=
  match s with
  | String a s' =>
      if is_ascii_whitespace a then strip_collapse_go s' started started
      else if pending then String " " (String a (strip_collapse_go s' true false))
      else String a (strip_collapse_go s' true false)
  | EmptyString => EmptyString
  end.

(** What the [document.title] getter returns for the text [s]: leading and
    trailing white space removed, every other run of white space replaced by
    one space. *)
Definition strip_and_collapse (s : string) : string :=
  strip_collapse_go s false false.

(** [times], when given, is at most 2^52: the countdown [times * 2] and every
    decrement of it are then exact Numbers. *)
Definition exact_times (cfg : AlertConfig) : Prop :=
  match times cfg with
  | Some n => n <= 2 ^ 52
  | None => True
  end.

(** ** A page with several controllers *)

Record Page : Type := mkPage {
  window : Host;
  instances : gmap nat Controller
}.

Section Page.

Variable canvasImage : property -> string.

(** [new TabAlert()]: a new closure, under an identity no other one has. *)
Definition TabAlert (p : Page) : nat * Page :=
  let i := fresh (dom (instances p)) in
  (i, mkPage (window p) (<[i := initial (window p)]> (instances p))).

(** Run a function of controller [i]; [None] when there is no such
    controller.  This is how the embedding renders lexical scope: the
    function gets the variables of its own closure and no others, and its
    changes are written back under [i]. *)
Definition call {A} (i : nat) (m : JS A) (p : Page)
  : option (completion A) * Page :=
  match instances p !! i with
  | Some c =>
      let '(r, e) := m (mkEnv c (window p)) in
      (Some r, mkPage (host e) (<[i := ctl e]> (instances p)))
  | None => (None, p)
  end.

Definition alert_on (i : nat) (args : jsarg) (p : Page) : Page :=
  snd (call i (alert i canvasImage args) p).

Definition stop_on (i : nat) (p : Page) : Page :=
  snd (call i stop p).

(** The interval with handle [h] fires, if it is running. *)
Definition fire (h : nat) (p : Page) : Page :=
  match List.find (fun t => (handle t =? h)%nat) (timers (window p)) with
  | Some t => snd (call (owner t) _timerEvent p)
  | None => p
  end.

End Page.

(** ** Sample inputs *)

Definition sample_canvas (p : property) : string :=
  match p with
  | Glyph g => "data:image/png;base64," ++ g
  | Inherited n => "data:image/png;base64,fn:" ++ n
  end.

(** A page titled "Inbox" with [<link rel="shortcut icon" href="/favicon.ico">]. *)
Definition sample_document : Document :=
  mkDocument "Inbox"
    (Some {[ "rel" := "shortcut icon"; "href" := "/favicon.ico" ]}).

Definition sample_host : Host := mkHost sample_document [] 1%nat [].

Definition sample_env : Env := mkEnv (initial sample_host) sample_host.

(** A page titled "Inbox" without a favicon link. *)
Definition bare_host : Host := mkHost (mkDocument "Inbox" None) [] 1%nat [].

Definition bare_env : Env := mkEnv (initial bare_host) bare_host.

(** A page titled "Inbox" with
    [<link rel="shortcut icon" type="image/x-icon" href="/favicon.ico">]. *)
Definition typed_host : Host :=
  mkHost
    (mkDocument "Inbox"
       (Some {[ "rel" := "shortcut icon"; "type" := "image/x-icon";
                "href" := "/favicon.ico" ]}))
    [] 1%nat [].

Definition typed_env : Env := mkEnv (initial typed_host) typed_host.

(** A config without an icon. *)
Definition config (m : option string) (n : option Z) (d : option delayval)
  : AlertConfig :=
  mkConfig m None n d.

(** The page on which [e] is the state of controller [i], the only one. *)
Definition page_of (i : nat) (e : Env) : Page :=
  mkPage (host e) {[ i := ctl e ]}.

(** A page on which two controllers have been created. *)
Definition two_controllers : Page :=
  mkPage sample_host
    (<[0%nat := initial sample_host]> (<[1%nat := initial sample_host]> ∅)).

(** ** Proof tactics for the script *)

Ltac js_unfold :=
  repeat (unfold exec, alert, _startTimer, _timerEvent, stop, _toggleFavicon,
    _toggleTitle, _getOriginalFavicon, member, bind, get, update, ret, throw,
    set_alertDelay, set_alertIcon, set_alertTitle, set_countdown,
    set_intervalID, set_originalIcon, set_originalTitle, set_showOriginal,
    with_host, clearInterval, setInterval, setAttribute, set_document_title,
    document_title, console_warn, querySelector_shortcut_icon, emit in *;
    cbn -[Z.add Z.sub Z.mul Z.ltb Z.eqb insert String.eqb is_not_empty ToString
          List.filter parseInt ICONS_get] in *;
    change (-1 =? 0) with false in * ).

(** Name the fields of an environment. *)
Ltac js_env e :=
  destruct e as [[dl ai at' cd id oi ot so] [[t fv] tm nh tr]].

(** Decide the next test of the script. *)
Ltac js_case :=
  match goal with
  | |- context [ Z.ltb ?x ?y ] => destruct (Z.ltb x y) eqn:?
  | |- context [ Z.eqb ?x ?y ] => destruct (Z.eqb x y) eqn:?
  | |- context [ is_not_empty ?x ] => destruct (is_not_empty x) eqn:?
  | |- context [ String.eqb ?x ?y ] => destruct (String.eqb x y) eqn:?
  | |- context [ match ?x with Some _ => _ | None => _ end ] =>
      is_var x; destruct x
  | |- context [ if ?x then _ else _ ] => is_var x; destruct x
  | |- context [ negb ?x ] => is_var x; destruct x
  end; js_unfold.

Ltac js_run := js_unfold; repeat js_case.

(** Turn the tests the script made into facts for [lia] and [congruence]. *)
Ltac js_facts :=
  repeat match goal with
  | H : Z.ltb _ _ = true |- _ => apply Z.ltb_lt in H
  | H : Z.ltb _ _ = false |- _ => apply Z.ltb_ge in H
  | H : Z.eqb _ _ = true |- _ => apply Z.eqb_eq in H
  | H : Z.eqb _ _ = false |- _ => apply Z.eqb_neq in H
  | H : String.eqb _ _ = true |- _ => apply String.eqb_eq in H
  | H : String.eqb _ _ = false |- _ => apply String.eqb_neq in H
  end.

(** ** parseInt on numbers *)

Lemma digit_char (d : N) :
  (d < 10)%N -> digitValue (pretty_N_char d) = Some (Z.of_N d).
Proof.
  intros Hd.
  assert (d = 0 \/ d = 1 \/ d = 2 \/ d = 3 \/ d = 4 \/ d = 5 \/ d = 6 \/
          d = 7 \/ d = 8 \/ d = 9)%N as Hcases by lia.
  repeat destruct Hcases as [-> | Hcases]; try subst d; reflexivity.
Qed.

Lemma parseDigits_digit (d : N) s acc :
  (d < 10)%N ->
  parseDigits 10 (String (pretty_N_char d) s) acc =
  parseDigits 10 s (Some (default 0 acc * 10 + Z.of_N d)).
Proof.
  intros Hd. cbn [parseDigits]. rewrite digit_char by done.
  destruct (Z.ltb_spec (Z.of_N d) 10); [reflexivity | lia].
Qed.

(** Reading back the digits [pretty_N_go] prints. *)
Lemma parseDigits_pretty (x : N) :
  forall s acc, (0 < x)%N ->
  exists m, parseDigits 10 (pretty_N_go x s) acc =
            parseDigits 10 s (Some (default 0 acc * m + Z.of_N x)).
Proof.
  induction (N.lt_wf_0 x) as [x _ IH]. intros s acc Hx.
  rewrite pretty_N_go_step by done.
  assert (Hmod : (x `mod` 10 < 10)%N) by (apply N.mod_lt; lia).
  destruct (decide (x `div` 10 = 0)%N) as [Hq|Hq].
  - rewrite Hq, pretty_N_go_0, parseDigits_digit by done.
    exists 10. do 2 f_equal.
    assert (x `mod` 10 = x)%N as ->; [|reflexivity].
    rewrite (N.div_mod x 10) at 2 by lia. rewrite Hq. lia.
  - destruct (IH (x `div` 10)%N) with
      (s := String (pretty_N_char (x `mod` 10)) s) (acc := acc) as [m Hm].
    { apply N.div_lt; lia. }
    { by apply N.neq_0_lt_0. }
    rewrite Hm, parseDigits_digit by done. cbn [default].
    exists (m * 10). do 2 f_equal.
    rewrite (N.div_mod x 10) at 3 by lia.
    rewrite N2Z.inj_add, N2Z.inj_mul. unfold id.
    generalize (default 0 acc). intros a. change (Z.of_N 10) with 10. ring.
Qed.

(** The numeral of a positive number starts with a digit from 1 to 9. *)
Lemma pretty_head (x : N) :
  forall s, (0 < x)%N ->
  exists d rest, (0 < d < 10)%N /\
    pretty_N_go x s = String (pretty_N_char d) rest.
Proof.
  induction (N.lt_wf_0 x) as [x _ IH]. intros s Hx.
  rewrite pretty_N_go_step by done.
  destruct (decide (x `div` 10 = 0)%N) as [Hq|Hq].
  - rewrite Hq, pretty_N_go_0. exists (x `mod` 10)%N, s.
    split; [|reflexivity].
    pose proof (N.div_mod x 10 ltac:(lia)) as H1.
    pose proof (N.mod_lt x 10 ltac:(lia)) as H2. rewrite Hq in H1.
    lia.
  - apply IH; [apply N.div_lt; lia | by apply N.neq_0_lt_0].
Qed.

Lemma parseInt_string_numeral (d : N) rest :
  (0 < d < 10)%N ->
  parseInt_string (String (pretty_N_char d) rest) =
    parseDigits 10 (String (pretty_N_char d) rest) None /\
  parseInt_string (String "-" (String (pretty_N_char d) rest)) =
    Z.opp <$> parseDigits 10 (String (pretty_N_char d) rest) None.
Proof.
  intros Hd.
  assert (d = 1 \/ d = 2 \/ d = 3 \/ d = 4 \/ d = 5 \/ d = 6 \/
          d = 7 \/ d = 8 \/ d = 9)%N as Hcases by lia.
  repeat destruct Hcases as [-> | Hcases]; try subst d.
  all: unfold parseInt_string; cbn [trimStart pretty_N_char].
  all: repeat match goal with
       | |- context [isWhiteSpace ?c] => change (isWhiteSpace c) with false
       end.
  all: cbn -[parseDigits Z.mul Z.opp].
  all: destruct (parseDigits _ _ _) as [v|]; cbn -[Z.mul Z.opp].
  all: split; try reflexivity; f_equal; lia.
Qed.

(** [parseInt] of an integral Number is that number. *)
Lemma parseInt_number (z : Z) : parseInt (Some (DNum z)) = Some z.
Proof.
  unfold parseInt.
  destruct z as [|p|p]; [reflexivity|..].
  - unfold pretty, pretty_Z, pretty, pretty_positive, pretty, pretty_N.
    case_decide; [discriminate|].
    destruct (pretty_head (N.pos p) "") as (d & rest & Hd & Hhead); [lia|].
    destruct (parseDigits_pretty (N.pos p) "" None) as [m Hm]; [lia|].
    rewrite Hhead in *.
    destruct (parseInt_string_numeral d rest Hd) as [-> _].
    rewrite Hm. cbn. reflexivity.
  - unfold pretty, pretty_Z, pretty, pretty_positive, pretty, pretty_N.
    case_decide; [discriminate|].
    destruct (pretty_head (N.pos p) "") as (d & rest & Hd & Hhead); [lia|].
    destruct (parseDigits_pretty (N.pos p) "" None) as [m Hm]; [lia|].
    rewrite Hhead in *.
    change ("-" +:+ ?s) with (String "-" s).
    destruct (parseInt_string_numeral d rest Hd) as [_ ->].
    rewrite Hm. cbn. reflexivity.
Qed.

(** ** One tick *)

Lemma tick_returns e : fst (_timerEvent e) = Normal tt.
Proof. js_env e. js_run; reflexivity. Qed.

Lemma stop_returns e : fst (stop e) = Normal tt.
Proof. js_env e. js_run; reflexivity. Qed.

Lemma tick_config e : same_config (ctl e) (ctl (exec _timerEvent e)).
Proof. js_env e. js_run; repeat split. Qed.

Lemma tick_countdown e :
  countdown (ctl (exec _timerEvent e)) = Z.max (-1) (countdown (ctl e) - 1).
Proof. js_env e. js_run; js_facts; lia. Qed.

(** A tick that does not bring the countdown to zero: the flag flips, and
    neither [stop] nor the interval table is touched. *)
Lemma tick_quiet e :
  countdown (ctl e) <> 1 ->
  let e' := exec _timerEvent e in
  showOriginal (ctl e') = negb (showOriginal (ctl e)) /\
  timers (host e') = timers (host e) /\
  nextHandle (host e') = nextHandle (host e) /\
  stop_calls (trace (host e')) = stop_calls (trace (host e)).
Proof.
  js_env e. intros Hcd. js_run; js_facts; try lia; repeat split.
Qed.

(** Without an alert title such a tick leaves the document title alone. *)
Lemma tick_quiet_title e :
  countdown (ctl e) <> 1 -> alertTitle (ctl e) = "" ->
  let e' := exec _timerEvent e in
  title (document (host e')) = title (document (host e)) /\
  title_writes (trace (host e')) = title_writes (trace (host e)).
Proof.
  js_env e. intros Hcd Hat. js_run; js_facts; try lia; try congruence;
    repeat split.
Qed.

(** The tick that brings the countdown to zero runs [stop]. *)
Lemma tick_stop e :
  countdown (ctl e) = 1 ->
  let e' := exec _timerEvent e in
  shows_original e' /\
  stop_calls (trace (host e')) = S (stop_calls (trace (host e))) /\
  timers (host e') = List.filter (keeps (intervalID (ctl e))) (timers (host e)).
Proof.
  js_env e. intros Hcd. unfold shows_original.
  js_run; js_facts; try lia; (split; [|split; reflexivity]);
    (split; [reflexivity|split; [reflexivity|]]).
  all: try (intros el [= <-]; by simplify_map_eq).
  all: try (intros el Hel; discriminate Hel).
Qed.

Lemma tick_stop_title e :
  countdown (ctl e) = 1 -> alertTitle (ctl e) = "" ->
  let e' := exec _timerEvent e in
  title_writes (trace (host e')) =
    originalTitle (ctl e) :: title_writes (trace (host e)).
Proof.
  js_env e. intros Hcd Hat. js_run; js_facts; try lia; try congruence;
    reflexivity.
Qed.

(** ** Runs of ticks *)

Lemma ticks_S k e : ticks (S k) e = exec _timerEvent (ticks k e).
Proof. reflexivity. Qed.

Lemma ticks_add k j e : ticks (k + j) e = ticks k (ticks j e).
Proof. unfold ticks. apply Nat.iter_add. Qed.

Lemma same_config_trans c1 c2 c3 :
  same_config c1 c2 -> same_config c2 c3 -> same_config c1 c3.
Proof. unfold same_config. intuition congruence. Qed.

Lemma ticks_config k e : same_config (ctl e) (ctl (ticks k e)).
Proof.
  induction k as [|k IH].
  - repeat split.
  - rewrite ticks_S. eapply same_config_trans; [exact IH | apply tick_config].
Qed.

(** While the countdown stays above zero, every tick takes one off and flips
    the flag; [stop] does not run. *)
Lemma ticks_counting k e :
  Z.of_nat k < countdown (ctl e) ->
  let ek := ticks k e in
  countdown (ctl ek) = countdown (ctl e) - Z.of_nat k /\
  showOriginal (ctl ek) = xorb (Nat.odd k) (showOriginal (ctl e)) /\
  timers (host ek) = timers (host e) /\
  stop_calls (trace (host ek)) = stop_calls (trace (host e)).
Proof.
  induction k as [|k IH]; intros Hk.
  - cbn. repeat split; try lia; by destruct (showOriginal (ctl e)).
  - destruct IH as (Hc & Hs & Ht & Hn); [lia|].
    cbn zeta. rewrite ticks_S.
    destruct (tick_quiet (ticks k e)) as (Hs' & Ht' & _ & Hn'); [lia|].
    rewrite tick_countdown, Hs', Ht', Hn', Hc, Hs, Ht, Hn, Nat.odd_succ.
    rewrite <- Nat.negb_odd.
    repeat split; try lia; by destruct (Nat.odd k), (showOriginal (ctl e)).
Qed.

(** Once the countdown is at zero or below it is pinned at -1, and no tick
    ever runs [stop]. *)
Lemma ticks_unbounded k e :
  -1 <= countdown (ctl e) <= 0 ->
  let ek := ticks k e in
  -1 <= countdown (ctl ek) <= 0 /\
  ((0 < k)%nat -> countdown (ctl ek) = -1) /\
  showOriginal (ctl ek) = xorb (Nat.odd k) (showOriginal (ctl e)) /\
  timers (host ek) = timers (host e) /\
  stop_calls (trace (host ek)) = stop_calls (trace (host e)).
Proof.
  intros Hc. induction k as [|k IH].
  - cbn. repeat split; try lia; by destruct (showOriginal (ctl e)).
  - destruct IH as (Hk & _ & Hs & Ht & Hn).
    cbn zeta. rewrite ticks_S.
    destruct (tick_quiet (ticks k e)) as (Hs' & Ht' & _ & Hn'); [lia|].
    rewrite tick_countdown, Hs', Ht', Hn', Hs, Ht, Hn, Nat.odd_succ.
    rewrite <- Nat.negb_odd.
    repeat split; try lia; by destruct (Nat.odd k), (showOriginal (ctl e)).
Qed.

(** ** alert *)

Lemma alert_armed self cv cfg e :
  alert self cv (JObject cfg) e = _timerEvent (armed self cv cfg e).
Proof.
  js_env e. destruct cfg as [m i n d]. unfold armed, snapshot.
  unfold alert, _startTimer, _getOriginalFavicon, member, bind, get, update,
    ret, set_alertDelay, set_alertIcon, set_alertTitle, set_countdown,
    set_intervalID, set_originalIcon, set_originalTitle, set_showOriginal,
    with_host, setInterval, document_title, console_warn,
    querySelector_shortcut_icon, emit.
  cbn -[_timerEvent parseInt ICONS_get].
  destruct fv, m, (i ≫= ICONS_get), n, (parseInt d); reflexivity.
Qed.

Lemma alert_exec self cv cfg e :
  exec (alert self cv (JObject cfg)) e = ticks 1 (armed self cv cfg e).
Proof. unfold exec. by rewrite alert_armed. Qed.

Lemma armed_stop_calls self cv cfg e :
  stop_calls (trace (host (armed self cv cfg e))) = stop_calls (trace (host e)).
Proof. unfold armed. cbn. by destruct (favicon (document (host e))). Qed.

Lemma armed_title_writes self cv cfg e :
  title_writes (trace (host (armed self cv cfg e))) =
  title_writes (trace (host e)).
Proof. unfold armed. cbn. by destruct (favicon (document (host e))). Qed.

Lemma armed_running self cv cfg e :
  running (nextHandle (host e)) (host (armed self cv cfg e)).
Proof. eexists. split; [left; reflexivity | reflexivity]. Qed.

(** [clearInterval] ends the interval it is given. *)
Lemma cleared_not_running id (tm : list Timer) h :
  timers h = List.filter (keeps (Some id)) tm -> ~ running id h.
Proof.
  intros Htm (t & Hin & Hid). rewrite Htm in Hin.
  apply filter_In in Hin as [_ Hkeep]. cbn in Hkeep.
  apply negb_true_iff, Nat.eqb_neq in Hkeep. contradiction.
Qed.

Lemma stop_timers e :
  timers (host (exec stop e)) =
  List.filter (keeps (intervalID (ctl e))) (timers (host e)).
Proof. js_env e. js_run; reflexivity. Qed.

(** An alert whose countdown starts at zero never stops by itself: the
    synchronous tick pins the countdown at -1, every later tick flips the
    flag and leaves the interval running, and only [stop] ends it. *)
Lemma alert_unbounded self cv cfg e (k : nat) :
  countdown (ctl (armed self cv cfg e)) = 0 ->
  let ek := ticks k (exec (alert self cv (JObject cfg)) e) in
  stop_calls (trace (host ek)) = stop_calls (trace (host e)) /\
  countdown (ctl ek) = -1 /\
  showOriginal (ctl ek) = Nat.odd k /\
  intervalID (ctl ek) = Some (nextHandle (host e)) /\
  running (nextHandle (host e)) (host ek) /\
  ~ running (nextHandle (host e)) (host (exec stop ek)).
Proof.
  intros H0. cbn zeta. rewrite alert_exec, <- ticks_add.
  set (a := armed self cv cfg e) in *.
  destruct (ticks_unbounded (k + 1) a) as (_ & Hc & Hs & Ht & Hn); [lia|].
  destruct (ticks_config (k + 1) a) as (_ & _ & _ & Hid & _).
  assert (Hrun : running (nextHandle (host e)) (host (ticks (k + 1) a))).
  { destruct (armed_running self cv cfg e) as (t & Hin & Hh).
    exists t. by rewrite Ht. }
  repeat split; try done.
  - rewrite Hn. apply armed_stop_calls.
  - apply Hc. lia.
  - rewrite Hs, Nat.add_1_r, Nat.odd_succ, <- Nat.negb_odd.
    by destruct (Nat.odd k).
  - eapply cleared_not_running. rewrite stop_timers, Hid. reflexivity.
Qed.

(** ** stop *)

Lemma stop_config e : same_config (ctl e) (ctl (exec stop e)).
Proof. js_env e. js_run; repeat split. Qed.

(** [stop] puts the display on its "original" side, whatever the state. *)
Lemma stop_shows_original e : shows_original (exec stop e).
Proof.
  js_env e. unfold shows_original.
  js_run; (split; [reflexivity | split; [reflexivity|]]).
  all: try (intros el [= <-]; by simplify_map_eq).
  all: intros el Hel; discriminate Hel.
Qed.

(** After [alert] and any number of ticks, [stop] shows the title [alert]
    captured, and on the favicon link the string conversions of the two
    attribute values [alert] captured. *)
Lemma stop_after_alert self cv cfg e (k : nat) :
  let e' := exec stop (ticks k (exec (alert self cv (JObject cfg)) e)) in
  showOriginal (ctl e') = true /\
  title (document (host e')) = title (document (host e)) /\
  forall el, favicon (document (host e')) = Some el ->
    el !! "type" = Some (ToString (type (snapshot (document (host e))))) /\
    el !! "href" = Some (ToString (image (snapshot (document (host e))))).
Proof.
  cbn zeta. rewrite alert_exec, <- ticks_add.
  set (p := ticks (k + 1) (armed self cv cfg e)).
  destruct (stop_shows_original p) as (Hso & Ht & Hf).
  destruct (stop_config p) as (_ & _ & _ & _ & Hoi & Hot).
  destruct (ticks_config (k + 1) (armed self cv cfg e))
    as (_ & _ & _ & _ & Hoi' & Hot').
  fold p in Hoi', Hot'. rewrite Hoi, Hoi' in Hf. rewrite Hot, Hot' in Ht.
  auto.
Qed.

(** The script never removes or adds the favicon link. *)
Lemma tick_keeps_link e :
  is_Some (favicon (document (host e))) ->
  is_Some (favicon (document (host (exec _timerEvent e)))).
Proof. js_env e. intros [g Hg]. cbn in Hg. subst fv. js_run; eauto. Qed.

Lemma stop_keeps_link e :
  is_Some (favicon (document (host e))) ->
  is_Some (favicon (document (host (exec stop e)))).
Proof. js_env e. intros [g Hg]. cbn in Hg. subst fv. js_run; eauto. Qed.

Lemma ticks_keep_link k e :
  is_Some (favicon (document (host e))) ->
  is_Some (favicon (document (host (ticks k e)))).
Proof.
  intros He. induction k as [|k IH]; [exact He|].
  rewrite ticks_S. by apply tick_keeps_link.
Qed.

(** When the display is on its "original" side, an attribute the link
    carried at the time of the capture has its captured value. *)
Lemma shown_attribute (e e' : Env) name v :
  shows_original e' ->
  originalIcon (ctl e') = snapshot (document (host e)) ->
  is_Some (favicon (document (host e'))) ->
  name = "type" \/ name = "href" ->
  favicon_attribute name e = Some (JStr v) ->
  favicon_attribute name e' = Some (JStr v).
Proof.
  intros (_ & _ & Hf) Hoi [el Hel] Hname Hv.
  destruct (Hf el Hel) as [Hty Hhr]. rewrite Hoi in Hty, Hhr.
  unfold favicon_attribute, snapshot in *. rewrite Hel. cbn.
  destruct (favicon (document (host e))) as [g|]; [|discriminate].
  cbn in *. unfold getAttribute in *.
  destruct Hname as [-> | ->].
  - rewrite Hty. destruct (g !! "type"); by simplify_eq.
  - rewrite Hhr. destruct (g !! "href"); by simplify_eq.
Qed.

Lemma attribute_link name e v :
  favicon_attribute name e = Some v -> is_Some (favicon (document (host e))).
Proof.
  unfold favicon_attribute.
  destruct (favicon (document (host e))); [eauto | discriminate].
Qed.

(** An attribute the link carried when [alert] captured it is back after
    [stop]. *)
Lemma stop_restores_present_attributes self cv cfg e (k : nat) name v :
  name = "type" \/ name = "href" ->
  favicon_attribute name e = Some (JStr v) ->
  favicon_attribute name
    (exec stop (ticks k (exec (alert self cv (JObject cfg)) e)))
  = Some (JStr v).
Proof.
  intros Hname Hv. rewrite alert_exec, <- ticks_add.
  set (p := ticks (k + 1) (armed self cv cfg e)).
  destruct (stop_config p) as (_ & _ & _ & _ & Hoi & _).
  destruct (ticks_config (k + 1) (armed self cv cfg e))
    as (_ & _ & _ & _ & Hoi' & _).
  fold p in Hoi'.
  apply (shown_attribute e); try done.
  - apply stop_shows_original.
  - by rewrite Hoi, Hoi'.
  - apply stop_keeps_link, ticks_keep_link. by eapply attribute_link.
Qed.

(** ** The claims about the countdown *)




(** C3.  When [times] is omitted, no tick after [alert] ever runs [stop]:
    after any number of ticks the countdown is -1, [stop] has not been
    called, the flag has alternated, and the interval [alert] installed is
    still running; an explicit [stop] ends it. *)
Theorem alert_without_times_never_stops self cv cfg e (k : nat) :
  times cfg = None ->
  let ek := ticks k (exec (alert self cv (JObject cfg)) e) in
  stop_calls (trace (host ek)) = stop_calls (trace (host e)) /\
  countdown (ctl ek) = -1 /\
  showOriginal (ctl ek) = Nat.odd k /\
  intervalID (ctl ek) = Some (nextHandle (host e)) /\
  running (nextHandle (host e)) (host ek) /\
  ~ running (nextHandle (host e)) (host (exec stop ek)).
Proof.
  intros Hn. apply alert_unbounded. cbn. by rewrite Hn.
Qed.

(** [alert({message: "Done"})]: no stop within 100 ticks. *)
Lemma alert_without_times_never_stops_witness :
  let ek :=
    ticks 100 (exec (alert 0 sample_canvas
                       (JObject (config (Some "Done") None None)))
                 sample_env) in
  stop_calls (trace (host ek)) = 0%nat /\ countdown (ctl ek) = -1.
Proof.
  pose proof (alert_without_times_never_stops 0 sample_canvas
    (config (Some "Done") None None) sample_env 100 eq_refl) as H.
  cbn zeta in H. destruct H as (Hs & Hc & _).
  split; [exact Hs | exact Hc].
Defined.

(** C9.  [alert] with [times = 0] does not stop at once and never stops by
    itself: the countdown is set to 0, the synchronous first tick takes it
    to -1, where it stays; no tick runs [stop], the flag keeps alternating
    and the interval keeps running until an explicit [stop]. *)
Theorem alert_zero_times_never_stops self cv cfg e (k : nat) :
  times cfg = Some 0 ->
  let e1 := exec (alert self cv (JObject cfg)) e in
  countdown (ctl (armed self cv cfg e)) = 0 /\
  e1 = exec _timerEvent (armed self cv cfg e) /\
  countdown (ctl e1) = -1 /\
  stop_calls (trace (host e1)) = stop_calls (trace (host e)) /\
  let ek := ticks k e1 in
  stop_calls (trace (host ek)) = stop_calls (trace (host e)) /\
  countdown (ctl ek) = -1 /\
  showOriginal (ctl ek) = Nat.odd k /\
  running (nextHandle (host e)) (host ek) /\
  ~ running (nextHandle (host e)) (host (exec stop ek)).
Proof.
  intros Hn.
  assert (Ha : countdown (ctl (armed self cv cfg e)) = 0)
    by (cbn; by rewrite Hn).
  cbn zeta.
  destruct (alert_unbounded self cv cfg e 0 Ha) as (Hs0 & Hc0 & _).
  destruct (alert_unbounded self cv cfg e k Ha) as (Hs & Hc & Hf & _ & Hr & Hx).
  repeat split; try done.
  apply alert_exec.
Qed.

(** [alert({message: "Done", times: 0})]: still flashing after 7 ticks. *)
Lemma alert_zero_times_never_stops_witness :
  let ek :=
    ticks 7 (exec (alert 0 sample_canvas
                     (JObject (config (Some "Done") (Some 0) None)))
               sample_env) in
  stop_calls (trace (host ek)) = 0%nat /\ showOriginal (ctl ek) = true.
Proof.
  pose proof (alert_zero_times_never_stops 0 sample_canvas
    (config (Some "Done") (Some 0) None) sample_env 7 eq_refl) as H.
  cbn zeta in H. destruct H as (_ & _ & _ & _ & Hs & _ & Hf & _).
  split; [exact Hs | exact Hf].
Defined.

(** ** What stop restores *)

(** C2.  Failing input: a document whose favicon link has no [type]
    attribute, [<link rel="shortcut icon" href="/favicon.ico">].  [alert]
    captures [null] for the attribute; [stop] passes that [null] to
    [setAttribute], which stores the string "null".  After [stop] the title
    and [href] are the captured ones and the flag is set, but the link carries
    a [type] attribute it did not have, not equal to the captured value. *)
Theorem stop_writes_null_for_absent_type :
  let e := sample_env in
  let e1 := exec (alert 0 sample_canvas
                    (JObject (config (Some "Done") None None))) e in
  let e2 := exec stop e1 in
  favicon_attribute "type" e = Some JNull /\
  type (originalIcon (ctl e2)) = JNull /\
  favicon_attribute "type" e2 = Some (JStr "null") /\
  favicon_attribute "type" e2 <> Some (type (originalIcon (ctl e2))) /\
  favicon_attribute "href" e2 = favicon_attribute "href" e /\
  title (document (host e2)) = title (document (host e)) /\
  showOriginal (ctl e2) = true.
Proof. vm_compute. repeat split; discriminate. Qed.

(** ** The interval table *)

(** [alert] installs a new interval and cancels none: every interval that
    was running keeps running. *)
Lemma alert_adds_interval self cv cfg e :
  let e1 := exec (alert self cv (JObject cfg)) e in
  timers (host e1) =
    mkTimer (nextHandle (host e)) self (alertDelay (ctl e1)) ::
    timers (host e) /\
  stop_calls (trace (host e1)) = stop_calls (trace (host e)).
Proof.
  cbn zeta. rewrite alert_exec. change (ticks 1 ?x) with (exec _timerEvent x).
  set (a := armed self cv cfg e).
  assert (Hcd : countdown (ctl a) <> 1).
  { cbn. destruct (times cfg); lia. }
  destruct (tick_quiet a Hcd) as (_ & Ht & _ & Hs).
  destruct (tick_config a) as (Hd & _).
  rewrite Ht, Hs, Hd. split; [reflexivity | apply armed_stop_calls].
Qed.

(** C4.  Failing input: [alert({message: "A"})] followed by
    [alert({message: "B"})] on a new controller.  The second call starts
    interval 2 without clearing interval 1: both are running, and [intervalID]
    only remembers the second.  [stop] then clears interval 2, which no
    longer fires; interval 1 keeps running, and when it fires next the alert
    title is shown again. *)
Theorem second_alert_leaves_first_interval_running :
  let e1 := exec (alert 0 sample_canvas
                    (JObject (config (Some "A") None None))) sample_env in
  let e2 := exec (alert 0 sample_canvas
                    (JObject (config (Some "B") None None))) e1 in
  let e3 := exec stop e2 in
  List.map handle (timers (host e1)) = [1%nat] /\
  List.map handle (timers (host e2)) = [2%nat; 1%nat] /\
  List.map owner (timers (host e2)) = [0%nat; 0%nat] /\
  stop_calls (trace (host e2)) = 0%nat /\
  intervalID (ctl e2) = Some 2%nat /\
  List.map handle (timers (host e3)) = [1%nat] /\
  title (document (host e3)) = "A" /\
  fire 2 (page_of 0 e3) = page_of 0 e3 /\
  title (document (window (fire 1 (page_of 0 e3)))) = "B".
Proof. vm_compute. repeat split. Qed.

(** ** Exceptions *)

(** C5, counterexample.  [alert()] without an argument throws: reading
    [args.message] of [undefined] is a [TypeError]. *)
Lemma alert_undefined_throws :
  fst (alert 0 sample_canvas JUndefined sample_env) = Throw TypeError.
Proof. reflexivity. Qed.

(** C5, amended.  [alert] returns normally for every config object whose
    fields, as far as they are present, have the types of the JSDoc (message
    and icon strings, times an integral Number, delay an integral Number or a
    string), whichever of the fields are missing, and [stop] returns normally
    in every state; [alert] throws a [TypeError] when its argument is
    [undefined] or [null]. *)
Theorem alert_and_stop_return self cv e :
  (forall cfg, fst (alert self cv (JObject cfg) e) = Normal tt) /\
  fst (stop e) = Normal tt /\
  fst (alert self cv JUndefined e) = Throw TypeError /\
  fst (alert self cv JNullArg e) = Throw TypeError.
Proof.
  split; [|split; [apply stop_returns|]].
  - intros cfg. rewrite alert_armed. apply tick_returns.
  - js_env e. split; js_run; reflexivity.
Qed.

(** ** The title when no message is given *)

(** C6, counterexample.  [alert({times: 1})] on a page titled "Inbox"; the
    page then changes its own title to "Inbox (1)".  The next tick brings the
    countdown to zero, [stop] runs and writes "Inbox" over the title the page
    was showing. *)
Lemma auto_stop_writes_title :
  let cfg := config None (Some 1) None in
  let e1 := exec (alert 0 sample_canvas (JObject cfg)) sample_env in
  let e2 := host_title "Inbox (1)" e1 in
  let e3 := exec _timerEvent e2 in
  message cfg = None /\
  title_writes (trace (host e2)) = [] /\
  title (document (host e2)) = "Inbox (1)" /\
  title_writes (trace (host e3)) = ["Inbox"] /\
  title (document (host e3)) = "Inbox".
Proof. vm_compute. repeat split. Qed.

(** C6, amended.  With [message] omitted, [alert] itself and every tick that
    does not bring the countdown to zero leave the document title unwritten
    and unchanged.  The tick that brings the countdown to zero runs [stop],
    which writes the title once: the title captured by [alert]. *)
Theorem title_written_only_by_auto_stop self cv cfg e (k : nat) :
  message cfg = None ->
  let e1 := exec (alert self cv (JObject cfg)) e in
  title_writes (trace (host e1)) = title_writes (trace (host e)) /\
  title (document (host e1)) = title (document (host e)) /\
  let ek := ticks k e1 in
  let ek' := exec _timerEvent ek in
  (countdown (ctl ek) <> 1 ->
     stop_calls (trace (host ek')) = stop_calls (trace (host ek)) /\
     title_writes (trace (host ek')) = title_writes (trace (host ek)) /\
     title (document (host ek')) = title (document (host ek))) /\
  (countdown (ctl ek) = 1 ->
     stop_calls (trace (host ek')) = S (stop_calls (trace (host ek))) /\
     title_writes (trace (host ek')) =
       title (document (host e)) :: title_writes (trace (host ek)) /\
     title (document (host ek')) = title (document (host e))).
Proof.
  intros Hm. cbn zeta. rewrite alert_exec.
  set (a := armed self cv cfg e).
  assert (Hat : alertTitle (ctl a) = "") by (cbn; by rewrite Hm).
  assert (Hcd : countdown (ctl a) <> 1) by (cbn; destruct (times cfg); lia).
  destruct (tick_quiet_title a Hcd Hat) as (Ht & Hw).
  change (ticks 1 a) with (exec _timerEvent a).
  split; [rewrite Hw; apply armed_title_writes|].
  split; [by rewrite Ht|].
  change (exec _timerEvent a) with (ticks 1 a). rewrite <- ticks_add.
  set (p := ticks (k + 1) a).
  destruct (ticks_config (k + 1) a) as (_ & _ & Hat' & _ & _ & Hot).
  fold p in Hat', Hot. rewrite Hat in Hat'.
  split; intros Hp.
  - destruct (tick_quiet p Hp) as (_ & _ & _ & Hs).
    destruct (tick_quiet_title p Hp Hat') as (Ht' & Hw').
    auto.
  - destruct (tick_stop p Hp) as ((_ & Ht' & _) & Hs & _).
    destruct (tick_config p) as (_ & _ & _ & _ & _ & Hot').
    rewrite (tick_stop_title p Hp Hat'), Ht', Hot', Hot. auto.
Qed.

(** [alert({times: 1})]: no title write in [alert], one in the next tick. *)
Lemma title_written_only_by_auto_stop_witness :
  let e1 := exec (alert 0 sample_canvas
                    (JObject (config None (Some 1) None))) sample_env in
  title_writes (trace (host e1)) = [] /\
  title_writes (trace (host (exec _timerEvent e1))) = ["Inbox"].
Proof.
  pose proof (title_written_only_by_auto_stop 0 sample_canvas
    (config None (Some 1) None) sample_env 0 eq_refl) as H.
  cbn zeta in H. destruct H as (Hw & _ & _ & Hstop).
  split; [exact Hw|]. destruct Hstop as (_ & Hw' & _); [reflexivity|].
  exact Hw'.
Defined.

(** ** The delay *)

(** C7, counterexample.  [alert({delay: 0})] stores the delay 0, which is
    not greater than 0. *)
Lemma zero_delay_is_stored :
  let e1 := exec (alert 0 sample_canvas
                    (JObject (config None None (Some (DNum 0))))) sample_env in
  alertDelay (ctl e1) = 0 /\ ~ 0 < alertDelay (ctl e1).
Proof. vm_compute. split; [reflexivity | discriminate]. Qed.

(** C7, amended.  After [alert] the stored delay is 1000 when [parseInt]
    reads no integer from the given delay (in particular when there is
    none).  When it reads an integer of magnitude at most 2^53 (up to there a
    Number holds the integer exactly), that integer is stored, and the stored
    delay is greater than 0 exactly when the integer is: a delay that parses
    to zero or to a negative integer is stored as it is.  In particular an
    integral Number of magnitude at most 2^53 is stored unchanged. *)
Theorem alert_stores_parsed_delay self cv cfg e :
  let ms := alertDelay (ctl (exec (alert self cv (JObject cfg)) e)) in
  (parseInt (delay cfg) = None -> ms = DEFAULT_DELAY) /\
  (forall v, parseInt (delay cfg) = Some v -> Z.abs v <= 2 ^ 53 ->
     ms = v /\ (0 < ms <-> 0 < v)) /\
  (forall z, delay cfg = Some (DNum z) -> Z.abs z <= 2 ^ 53 -> ms = z) /\
  (delay cfg = None -> ms = DEFAULT_DELAY).
Proof.
  cbn zeta. rewrite alert_exec. change (ticks 1 ?x) with (exec _timerEvent x).
  destruct (tick_config (armed self cv cfg e)) as (-> & _). cbn.
  split; [by intros ->|]. split; [|split].
  - intros v -> _. cbn. split; [reflexivity | tauto].
  - intros z -> _. by rewrite parseInt_number.
  - by intros ->.
Qed.

(** ** stop twice *)

Lemma filter_twice {A} (f : A -> bool) (l : list A) :
  List.filter f (List.filter f l) = List.filter f l.
Proof.
  induction l as [|x l IH]; [reflexivity|].
  cbn. destruct (f x) eqn:Hx; cbn; [rewrite Hx, IH|]; done.
Qed.

Lemma write_twice (a b : string) (g : Element) :
  <["href":=a]> (<["type":=b]> (<["href":=a]> (<["type":=b]> g))) =
  <["href":=a]> (<["type":=b]> g).
Proof.
  apply map_eq. intros i.
  destruct (decide (i = "href")) as [->|]; [by simplify_map_eq|].
  destruct (decide (i = "type")) as [->|]; by simplify_map_eq.
Qed.

(** C8.  [stop] is idempotent: in every state both calls return normally, and
    the second call leaves the controller variables, the document (title and
    favicon attributes) and the interval table as the first call left them;
    it only repeats the writes of the first with the same values. *)
Theorem stop_idempotent e :
  let e1 := exec stop e in
  let e2 := exec stop e1 in
  fst (stop e) = Normal tt /\
  fst (stop e1) = Normal tt /\
  ctl e2 = ctl e1 /\
  document (host e2) = document (host e1) /\
  timers (host e2) = timers (host e1) /\
  nextHandle (host e2) = nextHandle (host e1).
Proof.
  cbn zeta. split; [apply stop_returns|]. split; [apply stop_returns|].
  js_env e. js_run; repeat split; try (by rewrite filter_twice).
  by rewrite write_twice.
Qed.

(** ** Several controllers on one page *)

(** Whatever function of controller [i] is run, [call] leaves the variables
    of the other controllers as they are. *)
Lemma call_other {A} (i j : nat) (m : JS A) (p : Page) :
  i <> j -> instances (snd (call i m p)) !! j = instances p !! j.
Proof.
  intros Hij. unfold call.
  destruct (instances p !! i) as [c|]; [|reflexivity].
  destruct (m _) as [r e']. cbn. by rewrite lookup_insert_ne.
Qed.

(** ** The display follows the flag *)

(** With an alert title, every tick leaves the title on the side the flag
    says, also the one that runs [stop]. *)
Lemma tick_title e :
  alertTitle (ctl e) <> "" ->
  let e' := exec _timerEvent e in
  title (document (host e')) =
    if showOriginal (ctl e') then originalTitle (ctl e) else alertTitle (ctl e).
Proof.
  js_env e. intros Hat. js_run; js_facts; try lia; try congruence; reflexivity.
Qed.


(** While the countdown is at zero or below, no tick runs [stop]. *)
Lemma ticks_nonpositive k e :
  countdown (ctl e) <= 0 ->
  let ek := ticks k e in
  countdown (ctl ek) <= 0 /\
  showOriginal (ctl ek) = xorb (Nat.odd k) (showOriginal (ctl e)) /\
  timers (host ek) = timers (host e) /\
  stop_calls (trace (host ek)) = stop_calls (trace (host e)).
Proof.
  intros Hc. induction k as [|k IH].
  - cbn. repeat split; try lia; by destruct (showOriginal (ctl e)).
  - destruct IH as (Hk & Hs & Ht & Hn).
    cbn zeta. rewrite ticks_S.
    destruct (tick_quiet (ticks k e)) as (Hs' & Ht' & _ & Hn'); [lia|].
    rewrite tick_countdown, Hs', Ht', Hn', Hs, Ht, Hn, Nat.odd_succ.
    rewrite <- Nat.negb_odd.
    repeat split; try lia; by destruct (Nat.odd k), (showOriginal (ctl e)).
Qed.

(** As long as the countdown does not expire, the flag alternates, starting
    on "alert" right after [alert], and the interval table only holds the new
    interval on top of the old ones. *)
Lemma alert_flag self cv cfg e (k : nat) :
  no_expiry cfg k ->
  let ek := ticks k (exec (alert self cv (JObject cfg)) e) in
  showOriginal (ctl ek) = Nat.odd k /\
  timers (host ek) = timers (host (armed self cv cfg e)) /\
  stop_calls (trace (host ek)) = stop_calls (trace (host e)).
Proof.
  intros Hno. cbn zeta. rewrite alert_exec, <- ticks_add.
  set (a := armed self cv cfg e).
  assert (Hrun : showOriginal (ctl (ticks (k + 1) a)) =
                   xorb (Nat.odd (k + 1)) true /\
                 timers (host (ticks (k + 1) a)) = timers (host a) /\
                 stop_calls (trace (host (ticks (k + 1) a))) =
                   stop_calls (trace (host a))).
  { unfold no_expiry in Hno.
    assert (Hcd : countdown (ctl a) <= 0 \/
                  Z.of_nat (k + 1) < countdown (ctl a)).
    { cbn. destruct (times cfg); lia. }
    destruct Hcd as [Hcd|Hcd].
    - destruct (ticks_nonpositive (k + 1) a Hcd) as (_ & ? & ? & ?). auto.
    - destruct (ticks_counting (k + 1) a Hcd) as (_ & ? & ? & ?). auto. }
  destruct Hrun as (Hs & Ht & Hn).
  rewrite Hs, Ht, Hn, Nat.add_1_r, Nat.odd_succ, <- Nat.negb_odd.
  repeat split; [by destruct (Nat.odd k) | apply armed_stop_calls].
Qed.

Lemma title_after_ticks self cv cfg e m (k : nat) :
  message cfg = Some m -> m <> "" ->
  let ek := ticks k (exec (alert self cv (JObject cfg)) e) in
  title (document (host ek)) =
    if showOriginal (ctl ek) then title (document (host e)) else m.
Proof.
  intros Hm Hne. cbn zeta. rewrite alert_exec, <- ticks_add, Nat.add_1_r.
  rewrite ticks_S.
  set (a := armed self cv cfg e). set (p := ticks k a).
  destruct (ticks_config k a) as (_ & _ & Hat & _ & _ & Hot). fold p in Hat, Hot.
  assert (Ha : alertTitle (ctl a) = m) by (cbn; by rewrite Hm).
  rewrite tick_title by congruence.
  rewrite Hat, Hot, Ha. reflexivity.
Qed.

(** X1.  When [alert] is given a non-empty message that is in the form the
    title getter returns (no leading, trailing or repeated white space), the
    document title agrees with the flag after [alert] and after every later
    tick, whatever the other fields are and whether or not the countdown has
    expired: it is the message while the flag says "alert" and the title
    captured by [alert] while it says "original". *)
Theorem title_follows_flag self cv cfg e m (k : nat) :
  message cfg = Some m -> m <> "" -> strip_and_collapse m = m ->
  let ek := ticks k (exec (alert self cv (JObject cfg)) e) in
  title (document (host ek)) =
    if showOriginal (ctl ek) then title (document (host e)) else m.
Proof. intros Hm Hne _. by apply title_after_ticks. Qed.

(** [alert({message: "Done now", times: 2})], three ticks later. *)
Lemma title_follows_flag_witness :
  let ek := ticks 3 (exec (alert 0 sample_canvas
                             (JObject (config (Some "Done now") (Some 2) None)))
                       sample_env) in
  title (document (host ek)) =
    if showOriginal (ctl ek) then "Inbox" else "Done now".
Proof.
  apply (title_follows_flag 0 sample_canvas
           (config (Some "Done now") (Some 2) None) sample_env "Done now" 3
           eq_refl); [discriminate | reflexivity].
Defined.

(** X2.  With such a message the title flashes: as long as the countdown has
    not expired ([times] at most 2^52, so that it counts exactly), the title
    is the message right after [alert] and after every even number of ticks,
    and the captured title after every odd number. *)
Theorem title_alternates self cv cfg e m (k : nat) :
  message cfg = Some m -> m <> "" -> strip_and_collapse m = m ->
  exact_times cfg -> no_expiry cfg k ->
  let ek := ticks k (exec (alert self cv (JObject cfg)) e) in
  showOriginal (ctl ek) = Nat.odd k /\
  title (document (host ek)) =
    if Nat.odd k then title (document (host e)) else m.
Proof.
  intros Hm Hne _ _ Hno. cbn zeta.
  destruct (alert_flag self cv cfg e k Hno) as (Hs & _).
  split; [exact Hs|].
  pose proof (title_after_ticks self cv cfg e m k Hm Hne) as Ht.
  cbn zeta in Ht. by rewrite Ht, Hs.
Qed.

(** [alert({message: "Done", times: 3})]: the message after 4 ticks, the
    page's own title on the flag's "original" side. *)
Lemma title_alternates_witness :
  let e4 := ticks 4 (exec (alert 0 sample_canvas
                             (JObject (config (Some "Done") (Some 3) None)))
                       sample_env) in
  showOriginal (ctl e4) = false /\ title (document (host e4)) = "Done".
Proof.
  exact (title_alternates 0 sample_canvas (config (Some "Done") (Some 3) None)
           sample_env "Done" 4 eq_refl ltac:(discriminate) eq_refl
           ltac:(vm_compute; discriminate) ltac:(right; reflexivity)).
Defined.









(** ** A document without a favicon link *)

Lemma tick_no_link e :
  favicon (document (host e)) = None ->
  let e' := exec _timerEvent e in
  favicon (document (host e')) = None /\
  attribute_writes (trace (host e')) = attribute_writes (trace (host e)).
Proof. js_env e. intros Hf. cbn in Hf. subst fv. js_run; by split. Qed.

Lemma stop_no_link e :
  favicon (document (host e)) = None ->
  let e' := exec stop e in
  favicon (document (host e')) = None /\
  attribute_writes (trace (host e')) = attribute_writes (trace (host e)).
Proof. js_env e. intros Hf. cbn in Hf. subst fv. js_run; by split. Qed.

Lemma tick_warnings e :
  warnings (trace (host (exec _timerEvent e))) = warnings (trace (host e)).
Proof. js_env e. js_run; reflexivity. Qed.

Lemma stop_warnings e :
  warnings (trace (host (exec stop e))) = warnings (trace (host e)).
Proof. js_env e. js_run; reflexivity. Qed.

Lemma ticks_warnings k e :
  warnings (trace (host (ticks k e))) = warnings (trace (host e)).
Proof.
  induction k as [|k IH]; [reflexivity|]. by rewrite ticks_S, tick_warnings.
Qed.

(** X5.  In a document without a favicon link, [alert] captures the empty
    icon and returns normally; whatever icon was asked for, neither [alert]
    nor any tick nor [stop] writes an attribute, and no link appears. *)
Theorem no_link_no_attribute_write self cv cfg e (k : nat) :
  favicon (document (host e)) = None ->
  let e1 := exec (alert self cv (JObject cfg)) e in
  let ek := ticks k e1 in
  fst (alert self cv (JObject cfg) e) = Normal tt /\
  originalIcon (ctl ek) = mkIcon (JStr "") (JStr "") /\
  favicon (document (host ek)) = None /\
  attribute_writes (trace (host ek)) = attribute_writes (trace (host e)) /\
  favicon (document (host (exec stop ek))) = None /\
  attribute_writes (trace (host (exec stop ek))) =
    attribute_writes (trace (host e)).
Proof.
  intros Hf. cbn zeta.
  split; [rewrite alert_armed; apply tick_returns|].
  rewrite alert_exec, <- ticks_add.
  set (a := armed self cv cfg e).
  destruct (ticks_config (k + 1) a) as (_ & _ & _ & _ & Hoi & _).
  assert (Hk : favicon (document (host (ticks (k + 1) a))) = None /\
               attribute_writes (trace (host (ticks (k + 1) a))) =
                 attribute_writes (trace (host e))).
  { induction (k + 1)%nat as [|j IH].
    - cbn. by rewrite Hf.
    - rewrite ticks_S. destruct IH as (IHf & IHw).
      + by destruct (ticks_config j a) as (_ & _ & _ & _ & ? & _).
      + destruct (tick_no_link _ IHf) as (? & Hw). by rewrite Hw. }
  destruct Hk as (Hkf & Hkw). destruct (stop_no_link _ Hkf) as (Hsf & Hsw).
  rewrite Hoi, Hsw. repeat split; try done.
  cbn. unfold snapshot. by rewrite Hf.
Qed.

(** [alert({message: "Done", icon: "bell"})] on a page without a favicon
    link. *)
Lemma no_link_no_attribute_write_witness :
  let cfg := mkConfig (Some "Done") (Some "bell") None None in
  let ek := ticks 5 (exec (alert 0 sample_canvas (JObject cfg)) bare_env) in
  favicon (document (host (exec stop ek))) = None /\
  attribute_writes (trace (host (exec stop ek))) = [].
Proof.
  pose proof (no_link_no_attribute_write 0 sample_canvas
    (mkConfig (Some "Done") (Some "bell") None None) bare_env 5 eq_refl) as H.
  cbn zeta in H. destruct H as (_ & _ & _ & _ & Hf & Hw).
  split; [exact Hf | exact Hw].
Defined.

(** X6.  The script warns once per capture, and only when the document has
    no favicon link: after [alert], any number of ticks and [stop], the
    number of warnings has grown by one if there is no link and not at all
    if there is one. *)
Theorem warning_once_per_capture self cv cfg e (k : nat) :
  let e' := exec stop (ticks k (exec (alert self cv (JObject cfg)) e)) in
  warnings (trace (host e')) =
    match favicon (document (host e)) with
    | Some _ => warnings (trace (host e))
    | None => S (warnings (trace (host e)))
    end.
Proof.
  cbn zeta. rewrite stop_warnings, ticks_warnings, alert_exec, ticks_warnings.
  unfold armed. cbn. by destruct (favicon (document (host e))).
Qed.

(** ** What alert keeps of the past *)

(** X7.  [alert] assigns every closure variable: what it returns and the
    state it leaves depend on the host and on the argument, not on the values
    the variables had, so nothing of an earlier configuration survives a
    call. *)
Theorem alert_forgets_previous_state self cv cfg (c c' : Controller) (h : Host) :
  alert self cv (JObject cfg) (mkEnv c h) =
  alert self cv (JObject cfg) (mkEnv c' h).
Proof. by rewrite !alert_armed. Qed.

(** X8.  A second [alert] while the first one shows its message takes that
    message for the original title: [stop] then restores the first message,
    not the title of the page.  (The message is non-empty and in the form the
    title getter returns, so that the capture reads it back as written.) *)
Theorem second_alert_captures_message self cv cfg1 cfg2 e m :
  message cfg1 = Some m -> m <> "" -> strip_and_collapse m = m ->
  let e1 := exec (alert self cv (JObject cfg1)) e in
  let e2 := exec (alert self cv (JObject cfg2)) e1 in
  title (document (host e1)) = m /\
  originalTitle (ctl e2) = m /\
  forall k : nat, title (document (host (exec stop (ticks k e2)))) = m.
Proof.
  intros Hm Hne _. cbn zeta.
  assert (H1 : title (document (host (exec (alert self cv (JObject cfg1)) e)))
               = m).
  { pose proof (title_after_ticks self cv cfg1 e m 0 Hm Hne) as Ht.
    cbn zeta in Ht. change (ticks 0 ?x) with x in Ht. rewrite Ht.
    rewrite alert_exec. change (ticks 1 ?x) with (exec _timerEvent x).
    assert (Hcd : countdown (ctl (armed self cv cfg1 e)) <> 1).
    { cbn. destruct (times cfg1); lia. }
    destruct (tick_quiet _ Hcd) as (-> & _). reflexivity. }
  split; [exact H1|].
  assert (H2 : forall k, originalTitle
                 (ctl (ticks k (exec (alert self cv (JObject cfg2))
                          (exec (alert self cv (JObject cfg1)) e)))) = m).
  { intros k. rewrite alert_exec, <- ticks_add.
    destruct (ticks_config (k + 1)
                (armed self cv cfg2 (exec (alert self cv (JObject cfg1)) e)))
      as (_ & _ & _ & _ & _ & ->).
    exact H1. }
  split; [exact (H2 0%nat)|].
  intros k. destruct (stop_shows_original
    (ticks k (exec (alert self cv (JObject cfg2))
                (exec (alert self cv (JObject cfg1)) e)))) as (_ & -> & _).
  destruct (stop_config (ticks k (exec (alert self cv (JObject cfg2))
                (exec (alert self cv (JObject cfg1)) e))))
    as (_ & _ & _ & _ & _ & ->).
  apply H2.
Qed.

(** [alert({message: "A"})] then [alert({message: "B"})] on "Inbox". *)
Lemma second_alert_captures_message_witness :
  let e1 := exec (alert 0 sample_canvas
                    (JObject (config (Some "A") None None))) sample_env in
  let e2 := exec (alert 0 sample_canvas
                    (JObject (config (Some "B") None None))) e1 in
  title (document (host (exec stop (ticks 0 e2)))) = "A".
Proof.
  pose proof (second_alert_captures_message 0 sample_canvas
    (config (Some "A") None None) (config (Some "B") None None)
    sample_env "A" eq_refl ltac:(discriminate) eq_refl) as H.
  cbn zeta in H. destruct H as (_ & _ & H). exact (H 0%nat).
Defined.

Lemma filter_keeps_none (tm : list Timer) : List.filter (keeps None) tm = tm.
Proof. induction tm as [|t tm IH]; [reflexivity|]. cbn. by rewrite IH. Qed.

(** X9.  [stop] called on a controller that never ran [alert] does not leave
    the page alone: it writes the title the document had when the factory
    was called, and it sets the [type] and [href] attributes of the favicon
    link to the empty string. *)
Theorem stop_before_alert_blanks_favicon (h0 h : Host) (el : Element) :
  favicon (document h) = Some el ->
  let e' := exec stop (mkEnv (initial h0) h) in
  fst (stop (mkEnv (initial h0) h)) = Normal tt /\
  title (document (host e')) = title (document h0) /\
  favicon (document (host e')) = Some (<["href":=""]> (<["type":=""]> el)) /\
  timers (host e') = timers h.
Proof.
  intros Hel. destruct h as [[t fv] tm nh tr]. cbn in Hel. subst fv.
  js_run. repeat split. apply filter_keeps_none.
Qed.

(** On the sample page the favicon is lost. *)
Lemma stop_before_alert_blanks_favicon_witness :
  favicon_attribute "href" (exec stop sample_env) = Some (JStr "").
Proof.
  pose proof (stop_before_alert_blanks_favicon sample_host sample_host
    {[ "rel" := "shortcut icon"; "href" := "/favicon.ico" ]} eq_refl) as H.
  cbn zeta in H. destruct H as (_ & _ & Hf & _).
  unfold favicon_attribute. fold sample_env in Hf. rewrite Hf. reflexivity.
Defined.

(** ** Intervals *)

(** X10.  [alert] installs exactly one interval, owned by its controller and
    with the stored delay as period, under the handle it keeps in
    [intervalID]; it never calls [clearInterval], so every interval that was
    running before the call is still running after it. *)
Theorem alert_installs_and_never_clears self cv cfg e :
  let e1 := exec (alert self cv (JObject cfg)) e in
  timers (host e1) =
    mkTimer (nextHandle (host e)) self (alertDelay (ctl e1)) ::
    timers (host e) /\
  intervalID (ctl e1) = Some (nextHandle (host e)) /\
  stop_calls (trace (host e1)) = stop_calls (trace (host e)) /\
  forall id, running id (host e) -> running id (host e1).
Proof.
  cbn zeta. destruct (alert_adds_interval self cv cfg e) as (Ht & Hs).
  split; [exact Ht|]. split; [|split; [exact Hs|]].
  - rewrite alert_exec.
    by destruct (ticks_config 1 (armed self cv cfg e)) as (_ & _ & _ & -> & _).
  - intros id (t & Hin & Hid). exists t. rewrite Ht. split; [by right | done].
Qed.

(** X11.  [stop] ends the interval whose handle is in [intervalID] and no
    other: an interval with another handle that was running keeps running,
    and [stop] starts none. *)
Theorem stop_clears_only_its_interval e (id : nat) :
  (intervalID (ctl e) = Some id -> ~ running id (host (exec stop e))) /\
  (intervalID (ctl e) <> Some id -> running id (host e) ->
     running id (host (exec stop e))) /\
  (running id (host (exec stop e)) -> running id (host e)).
Proof.
  repeat split.
  - intros Hid. eapply cleared_not_running. rewrite stop_timers, Hid. done.
  - intros Hid (t & Hin & Ht). exists t. split; [|done].
    rewrite stop_timers. apply filter_In. split; [done|].
    destruct (intervalID (ctl e)) as [h|]; [|done]. cbn.
    apply negb_true_iff, Nat.eqb_neq. congruence.
  - intros (t & Hin & Ht). exists t. split; [|done].
    rewrite stop_timers in Hin. by apply filter_In in Hin as [? _].
Qed.

(** The state in which the countdown set by [alert] has just expired. *)
Lemma alert_expiry self cv cfg e n :
  times cfg = Some n -> 0 < n ->
  let e2 := ticks (Z.to_nat (2 * n - 1))
              (exec (alert self cv (JObject cfg)) e) in
  countdown (ctl e2) = 0 /\
  stop_calls (trace (host e2)) = S (stop_calls (trace (host e))) /\
  timers (host e2) =
    List.filter (keeps (Some (nextHandle (host e))))
      (timers (host (armed self cv cfg e))).
Proof.
  intros Hn Hpos. cbn zeta. rewrite alert_exec.
  set (a := armed self cv cfg e).
  assert (Ha : countdown (ctl a) = n * 2) by (cbn; by rewrite Hn).
  destruct (Z.to_nat (2 * n - 1)) as [|m] eqn:Hm; [lia|].
  rewrite ticks_S, <- ticks_add.
  set (p := ticks (m + 1) a).
  destruct (ticks_counting (m + 1) a) as (Hc & _ & Ht & Hst); [lia|].
  fold p in Hc, Ht, Hst.
  destruct (ticks_config (m + 1) a) as (_ & _ & _ & Hid & _). fold p in Hid.
  destruct (tick_stop p) as (_ & Hst' & Ht'); [lia|].
  rewrite tick_countdown, Hst', Hst, Ht', Ht, Hid.
  repeat split; [lia | f_equal; apply armed_stop_calls].
Qed.

(** X12.  With [times = n], [n] positive and at most 2^52 (so that the
    countdown is exact), the automatic [stop] happens once and for all: after
    half-toggle [2n], however many more ticks run (a leaked interval can
    still fire), [stop] is not called again. *)
Theorem auto_stop_happens_once self cv cfg e n (k : nat) :
  times cfg = Some n -> 0 < n -> n <= 2 ^ 52 ->
  (Z.to_nat (2 * n - 1) <= k)%nat ->
  let ek := ticks k (exec (alert self cv (JObject cfg)) e) in
  stop_calls (trace (host ek)) = S (stop_calls (trace (host e))) /\
  countdown (ctl ek) <= 0.
Proof.
  intros Hn Hpos _ Hk. cbn zeta.
  destruct (alert_expiry self cv cfg e n Hn Hpos) as (Hc & Hs & _).
  replace k with ((k - Z.to_nat (2 * n - 1)) + Z.to_nat (2 * n - 1))%nat by lia.
  rewrite ticks_add.
  destruct (ticks_nonpositive (k - Z.to_nat (2 * n - 1)) _ ltac:(rewrite Hc; lia))
    as (Hc' & _ & _ & Hs').
  by rewrite Hs', Hs.
Qed.

(** [alert({message: "Done", times: 1})]: one [stop] after 1 tick, still one
    after 50. *)
Lemma auto_stop_happens_once_witness :
  let ek := ticks 50 (exec (alert 0 sample_canvas
                              (JObject (config (Some "Done") (Some 1) None)))
                        sample_env) in
  stop_calls (trace (host ek)) = 1%nat.
Proof.
  pose proof (auto_stop_happens_once 0 sample_canvas
    (config (Some "Done") (Some 1) None) sample_env 1 50 eq_refl eq_refl
    ltac:(vm_compute; discriminate) ltac:(vm_compute; lia)) as H.
  cbn zeta in H. destruct H as (H & _). exact H.
Defined.

(** X13.  A negative [times] behaves like an omitted one: the countdown is
    pinned at -1 by the synchronous tick, [stop] is never called by a tick,
    the flag keeps alternating and the interval keeps running. *)
Theorem alert_negative_times_never_stops self cv cfg e n (k : nat) :
  times cfg = Some n -> n < 0 ->
  let ek := ticks k (exec (alert self cv (JObject cfg)) e) in
  stop_calls (trace (host ek)) = stop_calls (trace (host e)) /\
  countdown (ctl ek) = -1 /\
  showOriginal (ctl ek) = Nat.odd k /\
  running (nextHandle (host e)) (host ek).
Proof.
  intros Hn Hneg. cbn zeta.
  assert (Hno : no_expiry cfg k) by (unfold no_expiry; rewrite Hn; lia).
  destruct (alert_flag self cv cfg e k Hno) as (Hs & Ht & Hst).
  split; [exact Hst|]. split; [|split; [exact Hs|]].
  - rewrite alert_exec, <- ticks_add, Nat.add_1_r, ticks_S, tick_countdown.
    destruct (ticks_nonpositive k (armed self cv cfg e)) as (Hc & _).
    { cbn. rewrite Hn. lia. }
    lia.
  - destruct (armed_running self cv cfg e) as (t & Hin & Hh).
    exists t. by rewrite Ht.
Qed.

(** [alert({message: "Done", times: -3})]. *)
Lemma alert_negative_times_never_stops_witness :
  let ek := ticks 20 (exec (alert 0 sample_canvas
                              (JObject (config (Some "Done") (Some (-3)) None)))
                        sample_env) in
  stop_calls (trace (host ek)) = 0%nat /\ countdown (ctl ek) = -1.
Proof.
  pose proof (alert_negative_times_never_stops 0 sample_canvas
    (config (Some "Done") (Some (-3)) None) sample_env (-3) 20
    eq_refl eq_refl) as H.
  cbn zeta in H. destruct H as (Hs & Hc & _). split; [exact Hs | exact Hc].
Defined.

Lemma filter_keeps_fresh (h : nat) (tm : list Timer) :
  Forall (fun t => (handle t < h)%nat) tm ->
  List.filter (keeps (Some h)) tm = tm.
Proof.
  induction 1 as [|t tm Ht _ IH]; [reflexivity|].
  cbn. rewrite IH.
  destruct (Nat.eqb_spec (handle t) h); [lia | reflexivity].
Qed.

(** X14.  When every running interval has an older handle (as is the case
    while [setInterval] hands out new ones), an alert with a positive
    [times] of at most 2^52 cleans up after itself: once the countdown has expired the
    interval table is what it was before [alert], so on a page without
    intervals no tick follows the automatic [stop]. *)
Theorem auto_stop_restores_interval_table self cv cfg e n :
  handles_below (host e) -> times cfg = Some n -> 0 < n -> n <= 2 ^ 52 ->
  let e2 := ticks (Z.to_nat (2 * n - 1))
              (exec (alert self cv (JObject cfg)) e) in
  timers (host e2) = timers (host e) /\
  (timers (host e) = [] -> forall h, fire h (page_of self e2) = page_of self e2).
Proof.
  intros Hbelow Hn Hpos _. cbn zeta.
  destruct (alert_expiry self cv cfg e n Hn Hpos) as (_ & _ & Ht).
  assert (Ht' : timers (host (ticks (Z.to_nat (2 * n - 1))
                   (exec (alert self cv (JObject cfg)) e))) = timers (host e)).
  { rewrite Ht. cbn. rewrite Nat.eqb_refl. cbn.
    by apply filter_keeps_fresh. }
  split; [exact Ht'|].
  intros Hnil h. unfold fire, page_of. cbn. by rewrite Ht', Hnil.
Qed.

(** The scenario [alert({message: "Done", times: 2, delay: 500})]. *)
Lemma auto_stop_restores_interval_table_witness :
  let e2 := ticks 3 (exec (alert 0 sample_canvas
                 (JObject (config (Some "Done") (Some 2) (Some (DNum 500)))))
               sample_env) in
  timers (host e2) = [].
Proof.
  pose proof (auto_stop_restores_interval_table 0 sample_canvas
    (config (Some "Done") (Some 2) (Some (DNum 500))) sample_env 2
    ltac:(constructor) eq_refl eq_refl ltac:(vm_compute; discriminate)) as H.
  cbn zeta in H. destruct H as (H & _). exact H.
Defined.

(** ** alert without an object *)

(** X15.  When [alert] is called without an object it throws before it
    starts anything: no interval is installed, the document and the
    configuration variables are as before; but the stored originals have
    already been replaced by the current title and favicon. *)
Theorem alert_throws_before_starting self cv args e :
  (forall cfg, args <> JObject cfg) ->
  let e' := exec (alert self cv args) e in
  fst (alert self cv args e) = Throw TypeError /\
  document (host e') = document (host e) /\
  timers (host e') = timers (host e) /\
  nextHandle (host e') = nextHandle (host e) /\
  (alertDelay (ctl e'), alertIcon (ctl e'), alertTitle (ctl e'),
   countdown (ctl e'), intervalID (ctl e'), showOriginal (ctl e')) =
  (alertDelay (ctl e), alertIcon (ctl e), alertTitle (ctl e),
   countdown (ctl e), intervalID (ctl e), showOriginal (ctl e)) /\
  originalTitle (ctl e') = title (document (host e)) /\
  originalIcon (ctl e') = snapshot (document (host e)).
Proof.
  intros Hargs. js_env e. unfold snapshot.
  destruct args as [| |cfg]; [| |by destruct (Hargs cfg)];
    js_run; repeat split.
Qed.

(** [alert()] while nothing is running. *)
Lemma alert_throws_before_starting_witness :
  timers (host (exec (alert 0 sample_canvas JUndefined) sample_env)) = [].
Proof.
  pose proof (alert_throws_before_starting 0 sample_canvas JUndefined
    sample_env ltac:(discriminate)) as H.
  cbn zeta in H. destruct H as (_ & _ & H & _). exact H.
Defined.

(** ** The round trip alert, ticks, stop *)

(** The script writes no attribute but [type] and [href]. *)
Lemma tick_other_attribute e name :
  name <> "type" -> name <> "href" ->
  favicon_attribute name (exec _timerEvent e) = favicon_attribute name e.
Proof.
  intros Hty Hhr. js_env e. unfold favicon_attribute, getAttribute.
  js_run; try reflexivity; by simplify_map_eq.
Qed.

Lemma stop_other_attribute e name :
  name <> "type" -> name <> "href" ->
  favicon_attribute name (exec stop e) = favicon_attribute name e.
Proof.
  intros Hty Hhr. js_env e. unfold favicon_attribute, getAttribute.
  js_run; try reflexivity; by simplify_map_eq.
Qed.

Lemma ticks_other_attribute k e name :
  name <> "type" -> name <> "href" ->
  favicon_attribute name (ticks k e) = favicon_attribute name e.
Proof.
  intros Hty Hhr. induction k as [|k IH]; [reflexivity|].
  by rewrite ticks_S, tick_other_attribute.
Qed.

Lemma getAttribute_inj (el el' : Element) name :
  getAttribute el' name = getAttribute el name -> el' !! name = el !! name.
Proof.
  unfold getAttribute.
  destruct (el' !! name), (el !! name); intros; by simplify_eq.
Qed.

(** X16.  Round trip.  If the favicon link of the document, when there is
    one, carries both a [type] and an [href] attribute, then [alert], any
    number of ticks and [stop] leave the document exactly as it was: the
    title, the two attributes and every other attribute of the link. *)
Theorem alert_stop_round_trip self cv cfg e (k : nat) :
  (forall el, favicon (document (host e)) = Some el ->
     is_Some (el !! "type") /\ is_Some (el !! "href")) ->
  document (host (exec stop (ticks k (exec (alert self cv (JObject cfg)) e))))
  = document (host e).
Proof.
  intros Hattrs.
  pose proof (stop_after_alert self cv cfg e k) as (_ & Ht & Hf).
  cbn zeta in Ht, Hf.
  assert (Hother : forall name, name <> "type" -> name <> "href" ->
    favicon_attribute name
      (exec stop (ticks k (exec (alert self cv (JObject cfg)) e)))
    = favicon_attribute name e).
  { intros name Hty Hhr.
    rewrite stop_other_attribute, ticks_other_attribute, alert_exec,
      ticks_other_attribute by done.
    reflexivity. }
  set (e' := exec stop _) in *.
  destruct (document (host e')) as [t' fv'] eqn:Hd'.
  destruct (document (host e)) as [t fv] eqn:Hd.
  cbn in Ht. subst t'. f_equal.
  unfold favicon_attribute, snapshot in *. rewrite Hd', ?Hd in *. cbn in *.
  destruct fv as [el|].
  - destruct fv' as [el'|]; cycle 1.
    { assert (Hrel := Hother "rel"). cbn in Hrel.
      discriminate Hrel; discriminate. }
    f_equal. apply map_eq. intros name.
    destruct (Hf el' eq_refl) as [Hty Hhr].
    destruct (Hattrs el eq_refl) as [[vt Hvt] [vh Hvh]].
    destruct (decide (name = "type")) as [->|Hnt].
    { rewrite Hty. cbn. unfold getAttribute. by rewrite Hvt. }
    destruct (decide (name = "href")) as [->|Hnh].
    { rewrite Hhr. cbn. unfold getAttribute. by rewrite Hvh. }
    specialize (Hother name Hnt Hnh). cbn in Hother.
    apply getAttribute_inj. by simplify_eq.
  - destruct fv' as [el'|]; [|done].
    assert (Hrel := Hother "rel"). cbn in Hrel.
    discriminate Hrel; discriminate.
Qed.

(** [alert({message: "Done", icon: "fire"})], 7 ticks, [stop], on a page
    whose link has both attributes. *)
Lemma alert_stop_round_trip_witness :
  document (host (exec stop (ticks 7
    (exec (alert 0 sample_canvas
             (JObject (mkConfig (Some "Done") (Some "fire") None None)))
       typed_env))))
  = document typed_host.
Proof.
  apply (alert_stop_round_trip 0 sample_canvas
           (mkConfig (Some "Done") (Some "fire") None None) typed_env 7).
  intros el [= <-]. split; eexists; reflexivity.
Defined.

(** ** Ticks as firings of the interval *)

Lemma call_found {A} (i : nat) (m : JS A) (p : Page) (c : Controller) :
  instances p !! i = Some c ->
  snd (call i m p) =
    mkPage (host (exec m (mkEnv c (window p))))
           (<[i := ctl (exec m (mkEnv c (window p)))]> (instances p)).
Proof.
  intros Hc. unfold call, exec. rewrite Hc.
  by destruct (m _) as [r e'].
Qed.

Lemma find_cleared (h : nat) (tm : list Timer) :
  List.find (fun t => (handle t =? h)%nat) (List.filter (keeps (Some h)) tm)
  = None.
Proof.
  induction tm as [|t tm IH]; [reflexivity|].
  cbn. destruct (Nat.eqb_spec (handle t) h) as [Heq|Hne]; cbn; [exact IH|].
  destruct (Nat.eqb_spec (handle t) h); [contradiction | exact IH].
Qed.

(** X17.  On a page, [alert] with [times = n] ([n] positive and at most
    2^52, so that the countdown is exact) followed by [2n - 1] firings
    of the interval it installed is [alert] followed by [2n - 1] ticks of
    that controller: each firing finds the new interval and runs the
    controller's [_timerEvent].  After the last one the interval is gone, and
    firing its handle again changes nothing. *)
Theorem firings_run_the_countdown cv (p : Page) (i : nat) (c : Controller)
    (cfg : AlertConfig) (n : Z) :
  instances p !! i = Some c -> times cfg = Some n -> 0 < n -> n <= 2 ^ 52 ->
  let h := nextHandle (window p) in
  let e1 := exec (alert i cv (JObject cfg)) (mkEnv c (window p)) in
  let at_env e := mkPage (host e) (<[i := ctl e]> (instances p)) in
  alert_on cv i (JObject cfg) p = at_env e1 /\
  (forall j : nat, Z.of_nat j <= 2 * n - 1 ->
     Nat.iter j (fire h) (at_env e1) = at_env (ticks j e1)) /\
  let p2 := at_env (ticks (Z.to_nat (2 * n - 1)) e1) in
  fire h p2 = p2.
Proof.
  intros Hc Hn Hpos _. cbn zeta.
  split; [by apply call_found|]. split.
  - induction j as [|j IH]; intros Hj; [reflexivity|].
    rewrite Nat.iter_succ, IH by lia. clear IH.
    rewrite ticks_S. unfold fire. cbn [window].
    set (ej := ticks j (exec (alert i cv (JObject cfg)) (mkEnv c (window p)))).
    assert (Htm : timers (host ej) =
                  timers (host (armed i cv cfg (mkEnv c (window p))))).
    { apply (alert_flag i cv cfg (mkEnv c (window p)) j).
      unfold no_expiry. rewrite Hn. lia. }
    rewrite Htm. cbn [armed timers host List.find handle].
    rewrite Nat.eqb_refl. cbn [owner].
    rewrite (call_found i _ _ (ctl ej)) by (cbn; apply lookup_insert_eq).
    cbn [window instances]. rewrite insert_insert_eq.
    by destruct ej.
  - destruct (alert_expiry i cv cfg (mkEnv c (window p)) n Hn Hpos)
      as (_ & _ & Ht).
    unfold fire. cbn [window host] in *. rewrite Ht.
    by rewrite find_cleared.
Qed.

(** The scenario [alert({message: "Done", times: 2, delay: 500})] on the
    only controller of the sample page: three firings of interval 1. *)
Lemma firings_run_the_countdown_witness :
  let p3 := Nat.iter 3 (fire 1)
              (alert_on sample_canvas 0
                 (JObject (config (Some "Done") (Some 2) (Some (DNum 500))))
                 (page_of 0 sample_env)) in
  title (document (window p3)) = "Inbox" /\ timers (window p3) = [].
Proof.
  pose proof (firings_run_the_countdown sample_canvas (page_of 0 sample_env)
    0 (initial sample_host)
    (config (Some "Done") (Some 2) (Some (DNum 500))) 2
    eq_refl eq_refl eq_refl ltac:(vm_compute; discriminate)) as H.
  cbn zeta in H. destruct H as (Ha & Hj & _).
  pose proof (Hj 3%nat ltac:(vm_compute; discriminate)) as H3.
  rewrite <- Ha in H3. split.
  - exact (eq_trans (f_equal (fun q => title (document (window q))) H3)
             eq_refl).
  - exact (eq_trans (f_equal (fun q => timers (window q)) H3) eq_refl).
Defined.

(** ** Fields that count as omitted *)

(** X18.  Degenerate fields are the same as omitted ones: an empty message,
    an icon name that [ICONS] does not resolve, [times = 0], and a delay that
    does not parse (or parses to 1000) give exactly the call
    [alert({})]: the same result and the same state. *)
Theorem degenerate_fields_are_omitted self cv m i n d e :
  m = None \/ m = Some "" ->
  i ≫= ICONS_get = None ->
  n = None \/ n = Some 0 ->
  parseInt d = None \/ parseInt d = Some DEFAULT_DELAY ->
  alert self cv (JObject (mkConfig m i n d)) e =
  alert self cv (JObject (mkConfig None None None None)) e.
Proof.
  intros Hm Hi Hn Hd. rewrite !alert_armed. f_equal.
  unfold armed. cbn [message icon times delay].
  rewrite Hi.
  replace (default "" m) with "" by (by destruct Hm as [-> | ->]).
  replace (match n with Some n0 => n0 * 2 | None => 0 end) with 0
    by (by destruct Hn as [-> | ->]).
  replace (default DEFAULT_DELAY (parseInt d)) with DEFAULT_DELAY
    by (by destruct Hd as [-> | ->]).
  reflexivity.
Qed.

(** [alert({message: "", icon: "smiley", times: 0, delay: "soon"})]. *)
Lemma degenerate_fields_are_omitted_witness :
  alert 0 sample_canvas
    (JObject (mkConfig (Some "") (Some "smiley") (Some 0) (Some (DStr "soon"))))
    sample_env
  = alert 0 sample_canvas (JObject (mkConfig None None None None)) sample_env.
Proof.
  apply (degenerate_fields_are_omitted 0 sample_canvas); [by right | reflexivity
    | by right | by left].
Defined.

(** ** Two controllers on one document *)

(** X19.  Controllers keep their variables apart but share the document and
    the interval table.  When controller [j] runs [alert] while controller
    [i] shows its message (non-empty and in the form the title getter
    returns), [j] captures that message as its original title, and [stop] on
    [j] writes it back; that [stop] ends only the interval of [j], the one of
    [i] keeps running. *)
Theorem controllers_share_the_document cv (p : Page) (i j : nat)
    (ci cj : Controller) (cfg1 cfg2 : AlertConfig) (m : string) :
  i <> j -> instances p !! i = Some ci -> instances p !! j = Some cj ->
  message cfg1 = Some m -> m <> "" -> strip_and_collapse m = m ->
  let p2 := alert_on cv j (JObject cfg2) (alert_on cv i (JObject cfg1) p) in
  let p3 := stop_on j p2 in
  (originalTitle <$> instances p2 !! j) = Some m /\
  title (document (window p3)) = m /\
  running (nextHandle (window p)) (window p3) /\
  ~ running (S (nextHandle (window p))) (window p3).
Proof.
  intros Hij Hci Hcj Hm Hne _. cbn zeta. unfold alert_on, stop_on.
  rewrite (call_found i _ p ci Hci).
  set (e1 := exec (alert i cv (JObject cfg1)) (mkEnv ci (window p))).
  assert (Ht1 : title (document (host e1)) = m).
  { pose proof (title_after_ticks i cv cfg1 (mkEnv ci (window p)) m 0 Hm Hne)
      as Ht.
    cbn zeta in Ht. change (ticks 0 ?x) with x in Ht. fold e1 in Ht.
    rewrite Ht.
    destruct (alert_flag i cv cfg1 (mkEnv ci (window p)) 0) as (Hs & _).
    { unfold no_expiry. destruct (times cfg1); [lia | done]. }
    change (ticks 0 ?x) with x in Hs. fold e1 in Hs. by rewrite Hs. }
  destruct (alert_adds_interval i cv cfg1 (mkEnv ci (window p))) as (Htm1 & _).
  fold e1 in Htm1. cbn [host] in Htm1.
  assert (Hnh1 : nextHandle (host e1) = S (nextHandle (window p))).
  { unfold e1. rewrite alert_exec. change (ticks 1 ?x) with (exec _timerEvent x).
    assert (Hcd : countdown (ctl (armed i cv cfg1 (mkEnv ci (window p)))) <> 1).
    { cbn. destruct (times cfg1); lia. }
    by destruct (tick_quiet _ Hcd) as (_ & _ & -> & _). }
  rewrite (call_found j _ _ cj)
    by (cbn [instances]; by rewrite lookup_insert_ne).
  cbn [window instances].
  set (e2 := exec (alert j cv (JObject cfg2)) (mkEnv cj (host e1))).
  assert (Ho2 : originalTitle (ctl e2) = m).
  { unfold e2. rewrite alert_exec.
    by destruct (ticks_config 1 (armed j cv cfg2 (mkEnv cj (host e1))))
      as (_ & _ & _ & _ & _ & ->). }
  destruct (alert_adds_interval j cv cfg2 (mkEnv cj (host e1))) as (Htm2 & _).
  fold e2 in Htm2. cbn [host] in Htm2.
  assert (Hid2 : intervalID (ctl e2) = Some (S (nextHandle (window p)))).
  { unfold e2. rewrite alert_exec.
    destruct (ticks_config 1 (armed j cv cfg2 (mkEnv cj (host e1))))
      as (_ & _ & _ & -> & _).
    cbn. by rewrite Hnh1. }
  split; [rewrite lookup_insert_eq; cbn; by rewrite Ho2|].
  rewrite (call_found j _ _ (ctl e2)) by (cbn [instances]; apply lookup_insert_eq).
  cbn [window instances].
  replace (mkEnv (ctl e2) (host e2)) with e2 by (by destruct e2).
  destruct (stop_shows_original e2) as (_ & Hts & _).
  destruct (stop_config e2) as (_ & _ & _ & _ & _ & Hos).
  split; [by rewrite Hts, Hos|].
  split.
  - exists (mkTimer (nextHandle (window p)) i (alertDelay (ctl e1))).
    split; [|reflexivity].
    rewrite stop_timers, Hid2, Htm2, Htm1. apply filter_In. split.
    + right. by left.
    + cbn. apply negb_true_iff, Nat.eqb_neq. lia.
  - eapply cleared_not_running. rewrite stop_timers, Hid2. reflexivity.
Qed.

(** Controller 0 shows "A", then controller 1 alerts and stops. *)
Lemma controllers_share_the_document_witness :
  let p2 := alert_on sample_canvas 1 (JObject (config (Some "B") None None))
              (alert_on sample_canvas 0 (JObject (config (Some "A") None None))
                 two_controllers) in
  title (document (window (stop_on 1 p2))) = "A" /\
  running 1 (window (stop_on 1 p2)).
Proof.
  pose proof (controllers_share_the_document sample_canvas two_controllers
    0 1 (initial sample_host) (initial sample_host)
    (config (Some "A") None None) (config (Some "B") None None) "A"
    ltac:(discriminate) eq_refl eq_refl eq_refl ltac:(discriminate)
    eq_refl) as H.
  cbn zeta in H. destruct H as (_ & Ht & Hr & _). split; [exact Ht | exact Hr].
Defined.
